(** * JobAI: the submission pipeline of [server.js]

    A shallow embedding of the Express handlers [GET /api/jobs] and
    [POST /api/submit]: the task catalog, JavaScript values as far as the
    handlers use them (binary64 numbers, UTF-16 strings, truthiness,
    [parseInt], property access on a parsed JSON value), the external calls
    (judgment backend, chain client) as an explicit environment, and the
    handler itself in a small state-and-exception monad that records every
    external call it makes.

    Outside the model: what the console shows (the string conversions the
    logging performs are modelled where they can throw; the other logged
    values are strings, Numbers and booleans); the static pages; answers
    given by the middleware before a handler runs; requests that are not a
    multipart form with single-valued text fields (a JSON body, repeated
    field names), for which [req.body] holds other values than strings;
    exceptions that are not [Error] objects. *)

From Stdlib Require Import ZArith NArith List Bool String Ascii QArith Qabs Qpower Lia.
From Stdlib Require Import SpecFloat PrimFloat FloatOps.
Import ListNotations.

Local Open Scope Z_scope.

(* ================================================================== *)
(** ** JavaScript numbers: IEEE 754 binary64 *)

Module Number.

Definition prec : Z := 53.
Definition emax : Z := 1024.

(** A Number value. [S754_nan] is NaN, [S754_zero true] is -0. *)
Definition number : Type := spec_float.

Definition NaN : number := S754_nan.

(** The Number value of a mathematical integer (round to nearest, ties to
    even; exact below 2^53). *)
Definition of_Z (z : Z) : number := binary_normalize prec emax z 0 false.

Definition mul (x y : number) : number := SFmul prec emax x y.
Definition div (x y : number) : number := SFdiv prec emax x y.

(** [x === y] on two Numbers: NaN differs from everything, +0 equals -0. *)
Definition strict_eq (x y : number) : bool := SFeqb x y.

(** The mathematical floor of a finite Number; [None] for NaN and the
    infinities. *)
Definition floorZ (x : number) : option Z :=
  match x with
  | S754_zero _ => Some 0
  | S754_finite s m e =>
      let n := if s then Z.neg m else Z.pos m in
      Some (if 0 <=? e then Z.shiftl n e else Z.shiftr n (- e))
  | S754_infinity _ | S754_nan => None
  end.

(** [Math.floor]: NaN, the infinities and the zeros are returned as they
    are, and so is a Number whose exponent is not negative, which is an
    integer already; otherwise the fractional bits of the mantissa are
    dropped, rounding toward minus infinity (a value in (0,1) gives +0). *)
Definition Math_floor (x : number) : number :=
  match x with
  | S754_finite s m e =>
      if 0 <=? e then x
      else of_Z (Z.shiftr (if s then Z.neg m else Z.pos m) (- e))
  | _ => x
  end.

(** The exact rational value of a finite Number. *)
Definition toQ (x : number) : option Q :=
  match x with
  | S754_zero _ => Some 0%Q
  | S754_finite s m e =>
      let n := if s then Z.neg m else Z.pos m in
      Some (inject_Z n * Qpower 2 e)%Q
  | S754_infinity _ | S754_nan => None
  end.

(** A decimal literal of the source text, [digits / 10^fraction]:
    [0.05] is [{| digits := 5; fraction := 2 |}]. *)
Record literal : Type := { digits : Z; fraction : Z }.

(** The mathematical value of the literal. *)
Definition MV (l : literal) : Q :=
  (inject_Z (digits l) / inject_Z (10 ^ fraction l))%Q.

(** The Number value of the literal: the binary64 nearest to [MV].  Both
    [digits] and [10^fraction] are below 2^53 for every literal of the
    source, so the correctly rounded quotient is that value. *)
Definition of_literal (l : literal) : number :=
  div (of_Z (digits l)) (of_Z (10 ^ fraction l)).

End Number.
Import Number.

(* ================================================================== *)
(** ** JavaScript strings: sequences of UTF-16 code units *)

Definition jsstring : Type := list N.

(** An ASCII literal of the source as a JavaScript string. *)
Definition js (s : string) : jsstring :=
  map N_of_ascii (list_ascii_of_string s).

Fixpoint jsstring_eqb (a b : jsstring) : bool :=
  match a, b with
  | [], [] => true
  | x :: a', y :: b' => N.eqb x y && jsstring_eqb a' b'
  | _, _ => false
  end.

(** The double quote and the line feed, which the source writes as escapes. *)
Definition dquote : jsstring := [34%N].
Definition newline : jsstring := [10%N].

(* ================================================================== *)
(** ** JavaScript values *)

#[warnings="-register-all"]
Inductive value : Type :=
| VUndefined
| VNull
| VBool (b : bool)
| VNumber (n : number)
| VString (s : jsstring)
| VArray (items : list value)
| VObject (props : list (jsstring * value)).

(** [ToBoolean]: what [!v], [v && _] and [v ? _ : _] test. *)
Definition ToBoolean (v : value) : bool :=
  match v with
  | VUndefined | VNull => false
  | VBool b => b
  | VNumber (S754_zero _) | VNumber S754_nan => false
  | VNumber _ => true
  | VString [] => false
  | VString (_ :: _) => true
  | VArray _ | VObject _ => true
  end.

(** Own properties of an object, in creation order. *)
Fixpoint own (k : jsstring) (props : list (jsstring * value)) : option value :=
  match props with
  | [] => None
  | (k', v) :: rest => if jsstring_eqb k k' then Some v else own k rest
  end.

(** Whether [ToString(v)], which a template literal applies to [v],
    completes.  For a value that came out of [JSON.parse]: an object is
    converted by its [toString] method; an own member of that name is never
    callable and hides [Object.prototype.toString], and then no primitive is
    obtained ([valueOf], own or inherited, gives none either) and a TypeError
    is thrown.  An object without such a member gives [[object Object]].  An
    array is joined, which converts each element that is neither [null] nor
    [undefined].  Every other value converts. *)
Fixpoint ToString_completes (v : value) : bool :=
  match v with
  | VObject props =>
      match own (js "toString") props with
      | Some _ => false
      | None => true
      end
  | VArray items => forallb ToString_completes items
  | _ => true
  end.

Definition is_undefined (v : value) : bool :=
  match v with
  | VUndefined => true
  | _ => false
  end.

(** The names of the members [JSON.stringify] writes for an object: a member
    whose value is [undefined] is left out.  (The order is the creation
    order as long as no name is an array index, which holds for every object
    the handlers build.) *)
Definition sent_keys (v : value) : list jsstring :=
  match v with
  | VObject props =>
      map fst (filter (fun kv => negb (is_undefined (snd kv))) props)
  | _ => []
  end.

Definition own_keys (v : value) : list jsstring :=
  match v with
  | VObject props => map fst props
  | _ => []
  end.

(** A text field of the multipart form: absent, or a string. *)
Definition field (f : option jsstring) : value :=
  match f with
  | None => VUndefined
  | Some s => VString s
  end.

(** [ToString] of a form field, as template literals and [parseInt] apply it. *)
Definition ToString (f : option jsstring) : jsstring :=
  match f with
  | None => js "undefined"
  | Some s => s
  end.

(** [a || b] on a form field and a default string. *)
Definition or_default (f : option jsstring) (d : jsstring) : jsstring :=
  match f with
  | Some (c :: s) => c :: s
  | _ => d
  end.

(* ================================================================== *)
(** ** [parseInt(string)] with no radix argument *)

Module ParseInt.

(** StrWhiteSpaceChar: WhiteSpace and LineTerminator code units. *)
Definition is_whitespace (c : N) : bool :=
  let c := Z.of_N c in
  (c =? 0x09) || (c =? 0x0A) || (c =? 0x0B) || (c =? 0x0C) || (c =? 0x0D)
  || (c =? 0x20) || (c =? 0xA0) || (c =? 0x1680)
  || ((0x2000 <=? c) && (c <=? 0x200A))
  || (c =? 0x2028) || (c =? 0x2029) || (c =? 0x202F) || (c =? 0x205F)
  || (c =? 0x3000) || (c =? 0xFEFF).

Fixpoint trim_start (s : jsstring) : jsstring :=
  match s with
  | c :: r => if is_whitespace c then trim_start r else s
  | [] => []
  end.

(** The value of a code unit as a digit of the radix, if it is one. *)
Definition digit_value (radix : Z) (c : N) : option Z :=
  let c := Z.of_N c in
  let d :=
    if (48 <=? c) && (c <=? 57) then Some (c - 48)
    else if (97 <=? c) && (c <=? 122) then Some (c - 87)
    else if (65 <=? c) && (c <=? 90) then Some (c - 55)
    else None in
  match d with
  | Some n => if n <? radix then Some n else None
  | None => None
  end.

(** The digits of the longest prefix made of radix digits. *)
Fixpoint leading_digits (radix : Z) (s : jsstring) : list Z :=
  match s with
  | c :: r =>
      match digit_value radix c with
      | Some d => d :: leading_digits radix r
      | None => []
      end
  | [] => []
  end.

(** The mathematical integer a digit sequence denotes. *)
Definition mathInt (radix : Z) (ds : list Z) : Z :=
  fold_left (fun acc d => acc * radix + d) ds 0.

Definition is_x (c : N) : bool := N.eqb c 120 || N.eqb c 88.

(** [parseInt(s)]: skip leading white space, take a sign, take a [0x] or
    [0X] prefix (radix 16, otherwise radix 10), read digits up to the first
    code unit that is not one; no digit gives NaN.  (For more than 20
    significant decimal digits an engine may approximate the integer; such
    values are far above 2^53 either way.) *)
Definition parseInt (s : jsstring) : number :=
  let inputString := trim_start s in
  let '(negative, rest) :=
    match inputString with
    | c :: r =>
        if N.eqb c 45 then (true, r)
        else if N.eqb c 43 then (false, r)
        else (false, inputString)
    | [] => (false, [])
    end in
  let '(R, rest) :=
    match rest with
    | c0 :: c1 :: r => if N.eqb c0 48 && is_x c1 then (16, r) else (10, rest)
    | _ => (10, rest)
    end in
  match leading_digits R rest with
  | [] => NaN
  | ds =>
      let m := mathInt R ds in
      if m =? 0 then S754_zero negative
      else of_Z (if negative then - m else m)
  end.

End ParseInt.
Import ParseInt.

(* ================================================================== *)
(** ** The task catalog *)

Record Job : Type := {
  id : number;
  title : jsstring;
  description : jsstring;
  reward_literal : literal;
  difficulty : jsstring;
  timeEstimate : jsstring;
  verificationPrompt : jsstring
}.

(** [job.reward] at run time. *)
Definition reward (j : Job) : number := of_literal (reward_literal j).

Definition job1 : Job := {|
  id := of_Z 1;
  title := js "Create a meme about AI taking over jobs";
  description := js "Make a funny meme about AI replacing human workers. Must be original, funny, and shareable.";
  reward_literal := {| digits := 5; fraction := 2 |};
  difficulty := js "Easy";
  timeEstimate := js "10 min";
  verificationPrompt := js "Is this a funny, original meme about AI taking over jobs or replacing workers?"
|}.

Definition job2 : Job := {|
  id := of_Z 2;
  title := js "Write a tweet thread about $JOBAI";
  description := js "Write a 3-5 tweet thread explaining what JobAI is and why it matters. Screenshot your posted tweets.";
  reward_literal := {| digits := 8; fraction := 2 |};
  difficulty := js "Easy";
  timeEstimate := js "15 min";
  verificationPrompt := js "Does this show a tweet thread (3-5 tweets) about JobAI explaining what it is?"
|}.

Definition job3 : Job := {|
  id := of_Z 3;
  title := js "Design a $JOBAI logo concept";
  description := js "Create a simple logo concept for JobAI. Should be minimal, tech-focused, and work in green/black.";
  reward_literal := {| digits := 15; fraction := 2 |};
  difficulty := js "Medium";
  timeEstimate := js "30 min";
  verificationPrompt := js "Is this a logo design for JobAI? Is it minimal and tech-focused with green/black colors?"
|}.

Definition jobs : list Job := [job1; job2; job3].

(** [jobs.find(j => j.id === n)]. *)
Definition jobs_find (n : number) : option Job :=
  find (fun j => strict_eq (id j) n) jobs.

(* ================================================================== *)
(** ** [GET /api/jobs] *)

Record Response : Type := { status : Z; body : value }.

(** [res.json(v)] and [res.status(code).json(v)]. *)
Definition res_json (v : value) : Response := {| status := 200; body := v |}.
Definition res_status_json (code : Z) (v : value) : Response :=
  {| status := code; body := v |}.

(** The object literal the listing builds for one task. *)
Definition public_view (j : Job) : value :=
  VObject [ (js "id", VNumber (id j));
            (js "title", VString (title j));
            (js "description", VString (description j));
            (js "reward", VNumber (reward j));
            (js "difficulty", VString (difficulty j));
            (js "timeEstimate", VString (timeEstimate j)) ].

Definition get_api_jobs : Response :=
  res_json (VArray (map public_view jobs)).

(* ================================================================== *)
(** ** The environment of [POST /api/submit] *)

(** [req.file] as multer's memory storage leaves it. *)
Record File : Type := { buffer : list N; mimetype : jsstring }.

(** The multipart form: three text fields, each absent or a string, and at
    most one file under the name [image]. *)
Record Request : Type := {
  jobId : option jsstring;
  wallet : option jsstring;
  proofText : option jsstring;
  file : option File
}.

Definition PublicKey : Type := jsstring.
Record Keypair : Type := { publicKey : PublicKey }.
Record OpenAI : Type := { apiKey : jsstring }.

(** The two process-wide variables set at start-up: [openai] and
    [poolKeypair], each [null] ([None]) when its environment variable is
    absent (or, for the pool, malformed). *)
Record Config : Type := { openai : option OpenAI; poolKeypair : option Keypair }.

Record ChatRequest : Type := {
  model : jsstring;
  system_content : jsstring;
  user_text : jsstring;
  image_url : jsstring;
  response_format : jsstring;
  max_tokens : Z
}.

Record Transaction : Type := {
  fromPubkey : PublicKey;
  toPubkey : PublicKey;
  lamports : number;
  signer : Keypair
}.

(** What [JSON.parse(response.choices[0].message.content)] comes to, for the
    answer the backend gives to one request. *)
Inductive Reply : Type :=
| CallFails                 (* the awaited [create] promise rejects *)
| Unreadable                (* no message content, or content that is not JSON
                               text: evaluating the expression throws *)
| Parses (result : value).  (* [JSON.parse] returns [result] *)

(** The services the handler calls.  [None] and [false] stand for a thrown
    exception or a rejected promise. *)
Record World : Type := {
  chat_completions_create : ChatRequest -> Reply;
  new_PublicKey : jsstring -> option PublicKey;
  sendTransaction : Transaction -> option jsstring;
  confirmTransaction : jsstring -> bool
}.

(** Every call that leaves the handler, and the catalog lookup. *)
Inductive Event : Type :=
| JobsFind (n : number)
| ChatCreate (r : ChatRequest)
| NewPublicKey (address : jsstring)
| SendTransaction (t : Transaction)
| ConfirmTransaction (signature : jsstring).

Definition is_judge_call (e : Event) : bool :=
  match e with ChatCreate _ => true | _ => false end.

Definition is_chain_call (e : Event) : bool :=
  match e with
  | NewPublicKey _ | SendTransaction _ | ConfirmTransaction _ => true
  | _ => false
  end.

Definition is_lookup (e : Event) : bool :=
  match e with JobsFind _ => true | _ => false end.

(** Modelled from the spec: [LAMPORTS_PER_SOL] is imported from
    [@solana/web3.js]; the spec gives the subdivision factor as 1e9. *)
Definition LAMPORTS_PER_SOL : number := of_Z 1000000000.

(* ================================================================== *)
(** ** [Buffer.toString('base64')] *)

Module Base64.

Definition alphabet : jsstring :=
  js "ABCDEFGHIJKLMNOPQRSTUVWXYZabcdefghijklmnopqrstuvwxyz0123456789+/".

Definition sextet (n : N) : N := nth (N.to_nat n) alphabet 0%N.

Definition pad : N := 61%N.

Fixpoint encode (bytes : list N) : jsstring :=
  match bytes with
  | a :: b :: c :: rest =>
      sextet (a / 4) :: sextet ((a mod 4) * 16 + b / 16)
      :: sextet ((b mod 16) * 4 + c / 64) :: sextet (c mod 64)
      :: encode rest
  | [a; b] =>
      [sextet (a / 4); sextet ((a mod 4) * 16 + b / 16);
       sextet ((b mod 16) * 4); pad]
  | [a] => [sextet (a / 4); sextet ((a mod 4) * 16); pad; pad]
  | [] => []
  end%N.

End Base64.

(* ================================================================== *)
(** ** The handler monad: local variables, recorded calls, [return] and
       [throw] *)

Inductive Exn : Type :=
| TypeError | SyntaxError | BackendError | AddressError | SendError | ConfirmError.

Inductive completion (A : Type) : Type :=
| Normal (a : A)
| Return (r : Response)
| Throw (e : Exn).
Arguments Normal {A} a.
Arguments Return {A} r.
Arguments Throw {A} e.

(** The handler's [let] variables and the calls made so far (latest last). *)
Record Frame : Type := {
  approved : value;
  reason : value;
  txSignature : value;
  calls : list Event
}.

Definition M (A : Type) : Type := Frame -> completion A * Frame.

Definition ret {A} (a : A) : M A := fun f => (Normal a, f).
Definition return_ {A} (r : Response) : M A := fun f => (Return r, f).
Definition throw {A} (e : Exn) : M A := fun f => (Throw e, f).

Definition bind {A B} (m : M A) (k : A -> M B) : M B :=
  fun f =>
    match m f with
    | (Normal a, f') => k a f'
    | (Return r, f') => (Return r, f')
    | (Throw e, f') => (Throw e, f')
    end.

Notation "x <- m ;; k" := (bind m (fun x => k))
  (at level 61, m at next level, right associativity).
Notation "m ;; k" := (bind m (fun _ => k))
  (at level 61, right associativity).

(** [try { m } catch (e) { h e }]: the variables assigned before the throw
    keep their values. *)
Definition try_catch {A} (m : M A) (h : Exn -> M A) : M A :=
  fun f =>
    match m f with
    | (Throw e, f') => h e f'
    | r => r
    end.

(** Pure updates of the frame. *)
Definition log (e : Event) (f : Frame) : Frame :=
  {| approved := approved f; reason := reason f;
     txSignature := txSignature f; calls := calls f ++ [e] |}.

Definition with_approved (v : value) (f : Frame) : Frame :=
  {| approved := v; reason := reason f;
     txSignature := txSignature f; calls := calls f |}.

Definition with_reason (v : value) (f : Frame) : Frame :=
  {| approved := approved f; reason := v;
     txSignature := txSignature f; calls := calls f |}.

Definition with_txSignature (v : value) (f : Frame) : Frame :=
  {| approved := approved f; reason := reason f;
     txSignature := v; calls := calls f |}.

Definition emit (e : Event) : M unit := fun f => (Normal tt, log e f).
Definition set_approved (v : value) : M unit := fun f => (Normal tt, with_approved v f).
Definition set_reason (v : value) : M unit := fun f => (Normal tt, with_reason v f).
Definition set_txSignature (v : value) : M unit :=
  fun f => (Normal tt, with_txSignature v f).

Definition get_frame : M Frame := fun f => (Normal f, f).

(** [console.log] of a template literal that interpolates [v]: nothing of
    the output is kept, but the conversion of [v] to a string may throw. *)
Definition console_log_interpolating (v : value) : M unit :=
  if ToString_completes v then ret tt else throw TypeError.

(** [result.name] for the two names the handler reads, [approved] and
    [reason]: reading a property of [null] throws; an object gives its own
    property or [undefined]; numbers, booleans, strings and arrays have no
    property of either name. *)
Definition member (result : value) (name : jsstring) : M value :=
  match result with
  | VUndefined | VNull => throw TypeError
  | VObject props =>
      match own name props with
      | Some v => ret v
      | None => ret VUndefined
      end
  | _ => ret VUndefined
  end.

(* ================================================================== *)
(** ** [POST /api/submit] *)

Definition error_body (message : jsstring) : value :=
  VObject [ (js "error", VString message) ].

Definition system_prompt : jsstring :=
  js "You are a work verification AI. Analyze the submitted proof image and determine if the task was completed. Be fair but not too strict. Respond with JSON: { "
  ++ dquote ++ js "approved" ++ dquote ++ js ": true/false, "
  ++ dquote ++ js "reason" ++ dquote ++ js ": "
  ++ dquote ++ js "brief explanation" ++ dquote ++ js " }".

Definition chat_request (job : Job) (req : Request) (imageFile : File) : ChatRequest :=
  let base64Image := Base64.encode (buffer imageFile) in
  let mimeType := mimetype imageFile in
  {| model := js "gpt-4o";
     system_content := system_prompt;
     user_text :=
       js "Task: " ++ title job ++ newline
       ++ js "Description: " ++ description job ++ newline
       ++ js "Verification question: " ++ verificationPrompt job
       ++ newline ++ newline
       ++ js "Additional info from worker: "
       ++ or_default (proofText req) (js "none")
       ++ newline ++ newline ++ js "Did they complete this task?";
     image_url := js "data:" ++ mimeType ++ js ";base64," ++ base64Image;
     response_format := js "json_object";
     max_tokens := 200 |}.

Definition auto_approved : jsstring := js "Auto-approved (demo mode)".

Section Handler.

Variable cfg : Config.
Variable w : World.
Variable req : Request.

(** Lines 94-96. *)
Definition intake : M unit :=
  if negb (ToBoolean (field (jobId req))) || negb (ToBoolean (field (wallet req)))
  then return_ (res_status_json 400 (error_body (js "Missing required fields")))
  else ret tt.

(** Lines 98-101. *)
Definition resolve : M Job :=
  let n := parseInt (ToString (jobId req)) in
  emit (JobsFind n) ;;
  match jobs_find n with
  | None => return_ (res_status_json 404 (error_body (js "Job not found")))
  | Some job => ret job
  end.

(** [await openai.chat.completions.create(...)] followed by the
    [JSON.parse] of line 145. *)
Definition ask_backend (r : ChatRequest) : M value :=
  emit (ChatCreate r) ;;
  match chat_completions_create w r with
  | CallFails => throw BackendError
  | Unreadable => throw SyntaxError
  | Parses result => ret result
  end.

(** Lines 109-155.  Line 149 logs one of two fixed texts, chosen by the
    truthiness of [approved]; line 150 logs a template literal that
    interpolates [reason]. *)
Definition verify (job : Job) : M unit :=
  set_approved (VBool false) ;;
  set_reason (VString []) ;;
  match openai cfg, file req with
  | Some _, Some imageFile =>
      result <- ask_backend (chat_request job req imageFile) ;;
      a <- member result (js "approved") ;;
      set_approved a ;;
      r <- member result (js "reason") ;;
      set_reason r ;;
      f <- get_frame ;;
      console_log_interpolating (reason f)
  | _, _ =>
      set_approved (VBool true) ;;
      set_reason (VString auto_approved)
  end.

Definition construct_PublicKey (address : jsstring) : M PublicKey :=
  emit (NewPublicKey address) ;;
  match new_PublicKey w address with
  | Some k => ret k
  | None => throw AddressError
  end.

Definition await_sendTransaction (t : Transaction) : M jsstring :=
  emit (SendTransaction t) ;;
  match sendTransaction w t with
  | Some signature => ret signature
  | None => throw SendError
  end.

Definition await_confirmTransaction (signature : jsstring) : M unit :=
  emit (ConfirmTransaction signature) ;;
  if confirmTransaction w signature then ret tt else throw ConfirmError.

(** Line 164. *)
Definition lamports_of (job : Job) : number :=
  Math_floor (mul (reward job) LAMPORTS_PER_SOL).

(** The single-instruction transaction of lines 166-172. *)
Definition transfer (pool : Keypair) (toPublicKey : PublicKey) (job : Job)
  : Transaction :=
  {| fromPubkey := publicKey pool;
     toPubkey := toPublicKey;
     lamports := lamports_of job;
     signer := pool |}.

(** Lines 158-182. *)
Definition pay (job : Job) : M unit :=
  set_txSignature VNull ;;
  f <- get_frame ;;
  match ToBoolean (approved f), poolKeypair cfg with
  | true, Some pool =>
      try_catch
        (toPublicKey <- construct_PublicKey (ToString (wallet req)) ;;
         let transaction := transfer pool toPublicKey job in
         signature <- await_sendTransaction transaction ;;
         set_txSignature (VString signature) ;;
         await_confirmTransaction signature)
        (fun payErr => ret tt)
  | _, _ => ret tt
  end.

(** Lines 184-190: the object handed to [res.json]. *)
Definition assembled (job : Job) (f : Frame) : Response :=
  res_json (VObject
    [ (js "success", VBool true);
      (js "approved", approved f);
      (js "reason", reason f);
      (js "reward",
        if ToBoolean (approved f) then VNumber (reward job)
        else VNumber (of_Z 0));
      (js "txSignature", txSignature f) ]).

Definition respond (job : Job) : M Response :=
  f <- get_frame ;;
  ret (assembled job f).

Definition submit_body : M Response :=
  intake ;;
  job <- resolve ;;
  verify job ;;
  pay job ;;
  respond job.

Definition initial_frame : Frame :=
  {| approved := VUndefined; reason := VUndefined;
     txSignature := VUndefined; calls := [] |}.

(** The handler with its outer [try]/[catch]: the response sent and the
    calls made, in order. *)
Definition post_api_submit : Response * list Event :=
  match submit_body initial_frame with
  | (Normal r, f) | (Return r, f) => (r, calls f)
  | (Throw _, f) =>
      (res_status_json 500 (error_body (js "Failed to process submission")),
       calls f)
  end.

End Handler.

(** A member of a response body, [undefined] when the body has none. *)
Definition body_member (r : Response) (name : string) : value :=
  match body r with
  | VObject props =>
      match own (js name) props with
      | Some v => v
      | None => VUndefined
      end
  | _ => VUndefined
  end.

(* ================================================================== *)
(** ** Reading claims off the model *)

(** A form field that passes the [!field] test of the intake. *)
Definition present (f : option jsstring) : bool := ToBoolean (field f).

(** A form field that is missing or empty. *)
Definition missing_or_empty (f : option jsstring) : Prop :=
  f = None \/ f = Some [].

(** The integral value of a Number, when it is an integer. *)
Definition to_integer (x : number) : option Z :=
  match x with
  | S754_zero _ => Some 0
  | S754_finite s m e =>
      let n := if s then Z.neg m else Z.pos m in
      if 0 <=? e then Some (Z.shiftl n e)
      else if Z.land n (Z.ones (- e)) =? 0 then Some (Z.shiftr n (- e))
      else None
  | S754_infinity _ | S754_nan => None
  end.

(** The nominal reward of a task in base units, as the exact rational
    [literal * 10^9]. *)
Definition nominal_base_units (j : Job) : Q :=
  (MV (reward_literal j) * inject_Z 1000000000)%Q.

(** A rational truncated toward zero. *)
Definition Qtruncate (q : Q) : Z := Z.quot (Qnum q) (Zpos (Qden q)).

(** [v.name] as a value, for a [v] that is neither [null] nor [undefined]. *)
Definition property (v : value) (name : string) : value :=
  match v with
  | VObject props =>
      match own (js name) props with
      | Some x => x
      | None => VUndefined
      end
  | _ => VUndefined
  end.

(** The shape [{approved: bool, reason: string}]. *)
Definition verdict_shaped (v : value) : bool :=
  match v with
  | VObject props =>
      match own (js "approved") props, own (js "reason") props with
      | Some (VBool _), Some (VString _) => true
      | _, _ => false
      end
  | _ => false
  end.

(** The leading decimal digits of a string, as they stand. *)
Definition decimal_prefix (s : jsstring) : list Z := leading_digits 10 s.

(** The Number [jobs.find] compares the task ids with. *)
Definition lookup_key (req : Request) : number :=
  parseInt (ToString (jobId req)).

(** The frame after the fallback branch of the verification. *)
Definition auto_approve (f : Frame) : Frame :=
  {| approved := VBool true; reason := VString auto_approved;
     txSignature := txSignature f; calls := calls f |}.

(** The frame once the backend has been asked, before its answer is used. *)
Definition asked (r : ChatRequest) (f : Frame) : Frame :=
  {| approved := VBool false; reason := VString [];
     txSignature := txSignature f; calls := calls f ++ [ChatCreate r] |}.

(** The frame once the two members of the parsed answer are stored. *)
Definition judged (r : ChatRequest) (v : value) (f : Frame) : Frame :=
  {| approved := property v "approved"; reason := property v "reason";
     txSignature := txSignature f; calls := calls f ++ [ChatCreate r] |}.

(** The frame after the payout block: the signature variable and the calls
    the block added. *)
Definition paid (signature : value) (es : list Event) (f : Frame) : Frame :=
  {| approved := approved f; reason := reason f;
     txSignature := signature; calls := calls f ++ es |}.

(** The three error responses. *)
Definition bad_request : Response :=
  res_status_json 400 (error_body (js "Missing required fields")).
Definition not_found : Response :=
  res_status_json 404 (error_body (js "Job not found")).
Definition server_error : Response :=
  res_status_json 500 (error_body (js "Failed to process submission")).

(** Concrete configurations, services and submissions. *)
Module Scenario.

Definition pool : Keypair :=
  {| publicKey := js "So11111111111111111111111111111111111111112" |}.

Definition claimant : jsstring := js "11111111111111111111111111111111".

Definition signature : jsstring :=
  js "5VERv8NMvzbJMEkV8xnrLkEaWRtSz9CosKDYjCJjBRnbJLgp8uirBgmQpjKhoR4tjF3ZpRzrFmBV6UjKdiSZkQUW".

Definition png : File :=
  {| buffer := [137; 80; 78; 71; 13; 10; 26; 10]%N; mimetype := js "image/png" |}.

(** No backend key, a pool key; and both. *)
Definition demo_with_pool : Config :=
  {| openai := None; poolKeypair := Some pool |}.
Definition demo_without_pool : Config :=
  {| openai := None; poolKeypair := None |}.
Definition production : Config :=
  {| openai := Some {| apiKey := js "sk-test" |}; poolKeypair := Some pool |}.

(** Task 1 claimed with no image and no text. *)
Definition plain : Request :=
  {| jobId := Some (js "1"); wallet := Some claimant;
     proofText := None; file := None |}.

(** Task 1 claimed with an image. *)
Definition with_image : Request :=
  {| jobId := Some (js "1"); wallet := Some claimant;
     proofText := Some (js "see attached"); file := Some png |}.

Definition no_wallet : Request :=
  {| jobId := Some (js "1"); wallet := None; proofText := None; file := None |}.

Definition task99 : Request :=
  {| jobId := Some (js "99"); wallet := Some claimant;
     proofText := None; file := None |}.

Definition task_1abc : Request :=
  {| jobId := Some (js "1abc"); wallet := Some claimant;
     proofText := None; file := None |}.

Definition task_abc : Request :=
  {| jobId := Some (js "abc"); wallet := Some claimant;
     proofText := None; file := None |}.

(** A chain that accepts the claimant's address and the transfer, and
    whose confirmation resolves when [confirms] and throws otherwise; the
    backend answers with [reply]. *)
Definition world (reply : Reply) (confirms : bool) : World :=
  {| chat_completions_create := fun _ => reply;
     new_PublicKey := fun a => if jsstring_eqb a claimant then Some a else None;
     sendTransaction := fun _ => Some signature;
     confirmTransaction := fun _ => confirms |}.

(** A backend answer whose [approved] member is the string [false]. *)
Definition stringly : value :=
  VObject [ (js "approved", VString (js "false"));
            (js "reason", VString (js "The image does not show a meme")) ].

End Scenario.

(* ================================================================== *)
(** ** Start-up and [GET /api/pool] *)

(** The environment variables the process reads. *)
Record Env : Type := {
  OPENAI_API_KEY : option jsstring;
  HELIUS_RPC : option jsstring;
  POOL_PRIVATE_KEY : option jsstring;
  PORT : option jsstring
}.

(** Lines 14-38.  [keypair_of] stands for
    [Keypair.fromSecretKey(new Uint8Array(JSON.parse(text)))], [None] when
    one of the three throws, which the [catch] of line 35 swallows.  A
    variable that is unset or empty is falsy and leaves the [null]. *)
Definition startup (keypair_of : jsstring -> option Keypair) (env : Env) : Config :=
  {| openai :=
       match OPENAI_API_KEY env with
       | Some (c :: k) => Some {| apiKey := c :: k |}
       | _ => None
       end;
     poolKeypair :=
       match POOL_PRIVATE_KEY env with
       | Some (c :: k) => keypair_of (c :: k)
       | _ => None
       end |}.

(** Lines 23-26 and 218: the endpoint of the chain client and the port. *)
Definition rpc_endpoint (env : Env) : jsstring :=
  or_default (HELIUS_RPC env) (js "https://api.mainnet-beta.solana.com").

Definition listen_port (env : Env) : value :=
  match PORT env with
  | Some (c :: p) => VString (c :: p)
  | _ => VNumber (of_Z 3003)
  end.

Definition not_configured : jsstring := js "Not configured".

(** Lines 199-216.  [getBalance] stands for [connection.getBalance], the
    lamports of an account, [None] when the call throws.  The result is the
    response and the accounts whose balance was requested. *)
Definition get_api_pool (cfg : Config) (getBalance : PublicKey -> option number)
  : Response * list PublicKey :=
  match poolKeypair cfg with
  | Some pool =>
      match getBalance (publicKey pool) with
      | Some balance =>
          (res_json (VObject
             [ (js "address", VString (publicKey pool));
               (js "balance", VNumber (div balance LAMPORTS_PER_SOL)) ]),
           [publicKey pool])
      | None =>
          (res_status_json 500 (error_body (js "Failed to get pool info")),
           [publicKey pool])
      end
  | None =>
      (res_json (VObject
         [ (js "address", VString not_configured);
           (js "balance", VNumber (of_Z 0)) ]),
       [])
  end.

(* ================================================================== *)
(** ** The handler in direct style *)

(** What the verification of lines 109-155 comes to: the verdict and the
    rationale when it completes, [None] when it throws, and the judgment
    calls it made. *)
Definition verdict_of (cfg : Config) (w : World) (req : Request) (job : Job)
  : option (value * value) * list Event :=
  match openai cfg, file req with
  | Some _, Some imageFile =>
      let question := chat_request job req imageFile in
      (match chat_completions_create w question with
       | CallFails | Unreadable | Parses VNull | Parses VUndefined => None
       | Parses v =>
           if ToString_completes (property v "reason")
           then Some (property v "approved", property v "reason")
           else None
       end,
       [ChatCreate question])
  | _, _ => (Some (VBool true, VString auto_approved), [])
  end.

(** What the payout block of lines 158-182 comes to for the verdict [a]: the
    final value of the signature variable and the chain calls it made. *)
Definition payout_of (cfg : Config) (w : World) (req : Request) (job : Job)
    (a : value) : value * list Event :=
  match ToBoolean a, poolKeypair cfg with
  | true, Some pool =>
      let address := ToString (wallet req) in
      match new_PublicKey w address with
      | None => (VNull, [NewPublicKey address])
      | Some key =>
          let t := transfer pool key job in
          match sendTransaction w t with
          | None => (VNull, [NewPublicKey address; SendTransaction t])
          | Some s =>
              (VString s,
               [NewPublicKey address; SendTransaction t; ConfirmTransaction s])
          end
      end
  | _, _ => (VNull, [])
  end.

(** The whole handler as a decision table; [submit_is_outcome] proves it
    equal to [post_api_submit]. *)
Definition outcome (cfg : Config) (w : World) (req : Request)
  : Response * list Event :=
  if negb (present (jobId req) && present (wallet req)) then (bad_request, [])
  else
    let key := lookup_key req in
    match jobs_find key with
    | None => (not_found, [JobsFind key])
    | Some job =>
        match verdict_of cfg w req job with
        | (None, judge) => (server_error, JobsFind key :: judge)
        | (Some (a, rs), judge) =>
            (assembled job {| approved := a; reason := rs;
                              txSignature := fst (payout_of cfg w req job a);
                              calls := [] |},
             JobsFind key :: judge ++ snd (payout_of cfg w req job a))
        end
    end.

(** More configurations, services and submissions. *)
Module Cases.

(** A wallet field that is not an address: the constructor throws. *)
Definition bad_address : Request :=
  {| jobId := Some (js "1"); wallet := Some (js "W1");
     proofText := None; file := None |}.

(** Task 1 under other spellings of its identifier. *)
Definition padded : Request :=
  {| jobId := Some (js " 01"); wallet := Some Scenario.claimant;
     proofText := None; file := None |}.

(** A chain whose [sendTransaction] rejects. *)
Definition send_rejects : World :=
  {| chat_completions_create := fun _ => CallFails;
     new_PublicKey := fun a => Some a;
     sendTransaction := fun _ => None;
     confirmTransaction := fun _ => true |}.

(** A backend that says no. *)
Definition refusal : value :=
  VObject [ (js "approved", VBool false);
            (js "reason", VString (js "Not a meme")) ].

Definition env_without_keys : Env :=
  {| OPENAI_API_KEY := None; HELIUS_RPC := None;
     POOL_PRIVATE_KEY := Some (js "not json"); PORT := None |}.

(** A key parser that rejects everything but one text. *)
Definition keypair_of (text : jsstring) : option Keypair :=
  if jsstring_eqb text (js "[1,2,3]") then Some Scenario.pool else None.

End Cases.

(** Values off the usual path. *)
Module Edge.

(** A task that is not in the catalog; in binary64 the product of its
    reward, 2.01, with 10^9 is not an integer. *)
Definition odd_job : Job := {|
  id := of_Z 4;
  title := js "Off catalog";
  description := js "A reward whose lamport amount has a fraction";
  reward_literal := {| digits := 201; fraction := 2 |};
  difficulty := js "Easy";
  timeEstimate := js "1 min";
  verificationPrompt := js "Is this done?"
|}.

(** A backend answer that approves and whose [reason] is an object with a
    member named [toString]. *)
Definition unprintable : value :=
  VObject [ (js "approved", VBool true);
            (js "reason", VObject [ (js "toString", VNumber (of_Z 1)) ]) ].

(** A backend answer that approves and gives a rationale. *)
Definition approval : value :=
  VObject [ (js "approved", VBool true);
            (js "reason", VString (js "A meme about AI and jobs")) ].

End Edge.

(* ================================================================== *)
(** ** Numbers: checks of the model *)

(** The Number of each reward literal is within half a unit in the last
    place of the literal's mathematical value: it is the binary64 the
    engine stores for [0.05], [0.08] and [0.15]. *)
Lemma reward_numbers_nearest :
  Forall (fun j =>
    match reward j with
    | S754_finite false m e =>
        (Z.pos m <? 2 ^ 53) = true /\ (2 ^ 52 <=? Z.pos m) = true /\
        (Qabs (inject_Z (Z.pos m) * Qpower 2 e - MV (reward_literal j))
         <= Qpower 2 (e - 1))%Q
    | _ => False
    end) jobs.
Proof.
  repeat constructor; vm_compute; discriminate.
Qed.

(** The specification-level operations agree with the machine's binary64
    on the catalog's values. *)
#[warnings="-inexact-float"]
Example machine_floats_agree :
  Prim2SF 0.05%float = reward job1 /\
  Prim2SF 0.08%float = reward job2 /\
  Prim2SF 0.15%float = reward job3 /\
  Prim2SF (0.05 * 1000000000)%float = mul (reward job1) LAMPORTS_PER_SOL /\
  Prim2SF (0.08 * 1000000000)%float = mul (reward job2) LAMPORTS_PER_SOL /\
  Prim2SF (0.15 * 1000000000)%float = mul (reward job3) LAMPORTS_PER_SOL.
Proof. vm_compute. repeat split. Qed.

(** The Number stored for [0.15] lies below 0.15, and its exact product with
    10^9 lies below 150,000,000; the binary64 product rounds to the integer,
    which is the literal's exact amount. *)
Example product_of_0_15_rounds_to_the_integer :
  match toQ (reward job3) with
  | Some q => (q * inject_Z 1000000000 < inject_Z 150000000)%Q
  | None => False
  end /\
  mul (reward job3) LAMPORTS_PER_SOL = of_Z 150000000.
Proof. split; [vm_compute | ]; reflexivity. Qed.

(** The conversion is not exact for every two-digit amount: a reward of
    [2.01] would be paid as 2,009,999,999 base units. *)
Example conversion_can_lose_a_unit :
  to_integer (Math_floor (mul (of_literal {| digits := 201; fraction := 2 |})
                              LAMPORTS_PER_SOL))
  = Some 2009999999.
Proof. vm_compute. reflexivity. Qed.

Example base64_samples :
  Base64.encode (js "Man") = js "TWFu" /\
  Base64.encode (js "Ma") = js "TWE=" /\
  Base64.encode (js "M") = js "TQ==" /\
  Base64.encode [255; 255; 254; 0]%N = js "///+AA==".
Proof. vm_compute. repeat split. Qed.

Example parseInt_samples :
  map (fun s => to_integer (parseInt (js s)))
      ["1abc"; "01"; " 2"; "+2"; "-3"; "0x1"; "0X3z"; "3.9"; "99"; "-0"]%string
  = map Some [1; 1; 2; 2; -3; 1; 3; 3; 99; 0] /\
  map (fun s => parseInt (js s)) [""; "abc"; "-"; "0x"; "undefined"; ".5"]%string
  = [NaN; NaN; NaN; NaN; NaN; NaN].
Proof. vm_compute. split; reflexivity. Qed.

(* ================================================================== *)
(** ** The phases of the handler, one equation each *)

Ltac unfold_monad :=
  cbv beta iota zeta delta
    [bind ret return_ throw try_catch emit set_approved set_reason
     set_txSignature get_frame log with_approved with_reason with_txSignature
     approved reason txSignature calls].

Section Phases.

Variable cfg : Config.
Variable w : World.
Variable req : Request.

Lemma intake_passes f :
  present (jobId req) = true -> present (wallet req) = true ->
  intake req f = (Normal tt, f).
Proof.
  unfold intake, present. intros -> ->. reflexivity.
Qed.

Lemma intake_rejects f :
  present (jobId req) = false \/ present (wallet req) = false ->
  intake req f = (Return bad_request, f).
Proof.
  unfold intake, present. intros [-> | ->].
  - reflexivity.
  - rewrite orb_true_r. reflexivity.
Qed.

Lemma resolve_finds job f :
  jobs_find (lookup_key req) = Some job ->
  resolve req f = (Normal job, log (JobsFind (lookup_key req)) f).
Proof.
  unfold resolve, lookup_key, bind, emit. intros ->. reflexivity.
Qed.

Lemma resolve_misses f :
  jobs_find (lookup_key req) = None ->
  resolve req f = (Return not_found, log (JobsFind (lookup_key req)) f).
Proof.
  unfold resolve, lookup_key, bind, emit. intros ->. reflexivity.
Qed.

Lemma verify_falls_back job f :
  openai cfg = None \/ file req = None ->
  verify cfg w req job f = (Normal tt, auto_approve f).
Proof.
  unfold verify. intros [-> | ->]; [| destruct (openai cfg)]; reflexivity.
Qed.

Lemma verify_asks job f client imageFile :
  openai cfg = Some client -> file req = Some imageFile ->
  let r := chat_request job req imageFile in
  verify cfg w req job f
  = match chat_completions_create w r with
    | CallFails => (Throw BackendError, asked r f)
    | Unreadable => (Throw SyntaxError, asked r f)
    | Parses VNull | Parses VUndefined => (Throw TypeError, asked r f)
    | Parses v =>
        if ToString_completes (property v "reason")
        then (Normal tt, judged r v f)
        else (Throw TypeError, judged r v f)
    end.
Proof.
  intros Ho Hf r. unfold verify. rewrite Ho, Hf. fold r.
  unfold ask_backend. unfold_monad.
  destruct (chat_completions_create w r) as [ | | v]; try reflexivity.
  destruct v; try reflexivity.
  unfold judged, property, member, console_log_interpolating. unfold_monad.
  destruct (own (js "approved") props), (own (js "reason") props) as [v0 |];
    try reflexivity; destruct (ToString_completes v0); reflexivity.
Qed.

Lemma pay_skips job f :
  ToBoolean (approved f) = false \/ poolKeypair cfg = None ->
  pay cfg w req job f = (Normal tt, paid VNull [] f).
Proof.
  unfold pay, paid. unfold_monad. rewrite app_nil_r. intros [-> | ->].
  - reflexivity.
  - destruct (ToBoolean _); reflexivity.
Qed.

(** With an approved verdict and a pool, the block runs; whatever throws
    inside it is swallowed.  The signature variable is assigned as soon as
    [sendTransaction] resolves, so the outcome of [confirmTransaction]
    does not show in the frame. *)
Lemma pay_runs job f pool :
  ToBoolean (approved f) = true -> poolKeypair cfg = Some pool ->
  let address := ToString (wallet req) in
  pay cfg w req job f
  = (Normal tt,
     match new_PublicKey w address with
     | None => paid VNull [NewPublicKey address] f
     | Some key =>
         let t := transfer pool key job in
         match sendTransaction w t with
         | None => paid VNull [NewPublicKey address; SendTransaction t] f
         | Some sig =>
             paid (VString sig)
                  [NewPublicKey address; SendTransaction t;
                   ConfirmTransaction sig] f
         end
     end).
Proof.
  intros Ha Hp address. unfold pay.
  unfold construct_PublicKey, await_sendTransaction, await_confirmTransaction.
  unfold_monad. unfold approved in Ha. rewrite Ha, Hp. fold address.
  destruct (new_PublicKey w address) as [key |]; [| reflexivity].
  cbv zeta.
  destruct (sendTransaction w (transfer pool key job)) as [sig |];
    [| unfold paid; rewrite <- app_assoc; reflexivity].
  destruct (confirmTransaction w sig);
    unfold paid; rewrite <- !app_assoc; reflexivity.
Qed.

(** The payout block always completes normally, leaves the verdict alone
    and makes chain calls only. *)
Lemma pay_frame job f :
  exists signature es,
    pay cfg w req job f = (Normal tt, paid signature es f) /\
    forallb is_chain_call es = true /\
    (poolKeypair cfg = None -> signature = VNull /\ es = []).
Proof.
  destruct (ToBoolean (approved f)) eqn:Ha.
  - destruct (poolKeypair cfg) as [pool |] eqn:Hp.
    + rewrite (pay_runs job f pool Ha Hp). cbv zeta.
      destruct (new_PublicKey w _) as [key |].
      * destruct (sendTransaction w _) as [sig |];
          eexists _, _; (split; [reflexivity |]); split;
          try reflexivity; discriminate.
      * eexists _, _; (split; [reflexivity |]); split;
          try reflexivity; discriminate.
    + rewrite pay_skips by (right; assumption).
      eexists _, _; repeat split; reflexivity.
  - rewrite pay_skips by (left; assumption).
    eexists _, _; repeat split; reflexivity.
Qed.

Lemma assembled_members job f :
  status (assembled job f) = 200 /\
  body_member (assembled job f) "success" = VBool true /\
  body_member (assembled job f) "approved" = approved f /\
  body_member (assembled job f) "reason" = reason f /\
  body_member (assembled job f) "reward"
  = (if ToBoolean (approved f) then VNumber (reward job)
     else VNumber (of_Z 0)) /\
  body_member (assembled job f) "txSignature" = txSignature f.
Proof. repeat split. Qed.

(** The handler from the verification on, for a submission that passed the
    intake and resolved to [job]. *)
Lemma submit_resolved job :
  present (jobId req) = true -> present (wallet req) = true ->
  jobs_find (lookup_key req) = Some job ->
  post_api_submit cfg w req
  = match verify cfg w req job (log (JobsFind (lookup_key req)) initial_frame) with
    | (Normal _, f1) =>
        let f2 := snd (pay cfg w req job f1) in (assembled job f2, calls f2)
    | (Return r, f1) => (r, calls f1)
    | (Throw _, f1) => (server_error, calls f1)
    end.
Proof.
  intros Hj Hw Hfind.
  unfold post_api_submit, submit_body, bind at 1.
  rewrite (intake_passes _ Hj Hw).
  unfold bind at 1. rewrite (resolve_finds job _ Hfind).
  unfold bind at 1.
  destruct (verify cfg w req job _) as [[[] | r | e] f1]; try reflexivity.
  unfold bind at 1.
  destruct (pay_frame job f1) as (sig & es & -> & _).
  reflexivity.
Qed.

End Phases.

(* ================================================================== *)
(** ** The handler as a whole *)

Section Pipeline.

Variable cfg : Config.
Variable w : World.
Variable req : Request.

Lemma missing_is_absent f : missing_or_empty f -> present f = false.
Proof. intros [-> | ->]; reflexivity. Qed.

Lemma submit_intake_fails :
  present (jobId req) = false \/ present (wallet req) = false ->
  post_api_submit cfg w req = (bad_request, []).
Proof.
  intros H. unfold post_api_submit, submit_body, bind at 1.
  rewrite (intake_rejects req _ H). reflexivity.
Qed.

Lemma submit_lookup_fails :
  present (jobId req) = true -> present (wallet req) = true ->
  jobs_find (lookup_key req) = None ->
  post_api_submit cfg w req = (not_found, [JobsFind (lookup_key req)]).
Proof.
  intros Hj Hw Hfind. unfold post_api_submit, submit_body, bind at 1.
  rewrite (intake_passes req _ Hj Hw).
  unfold bind at 1. rewrite (resolve_misses req _ Hfind). reflexivity.
Qed.

(** No task is found for NaN, so a resolved submission has a task
    identifier that passed the intake. *)
Lemma resolved_has_jobId job :
  jobs_find (lookup_key req) = Some job -> present (jobId req) = true.
Proof.
  unfold lookup_key, present.
  destruct (jobId req) as [[| c s] |]; try reflexivity;
    vm_compute; discriminate.
Qed.

(** The verification makes judgment calls only, never answers by itself,
    and leaves the signature variable alone. *)
Lemma verify_frame job f c f1 :
  verify cfg w req job f = (c, f1) ->
  (forall r, c <> Return r) /\
  txSignature f1 = txSignature f /\
  exists es, calls f1 = calls f ++ es /\ forallb is_judge_call es = true /\
             (openai cfg = None \/ file req = None -> es = []).
Proof.
  destruct (openai cfg) as [client |] eqn:Ho.
  - destruct (file req) as [imageFile |] eqn:Hf.
    + rewrite (verify_asks cfg w req job f client imageFile Ho Hf). cbv zeta.
      intros E.
      assert (Hes : forall g : Frame,
                 calls g = calls f ++ [ChatCreate (chat_request job req imageFile)] ->
                 exists es, calls g = calls f ++ es /\
                   forallb is_judge_call es = true /\
                   (Some client = None \/ Some imageFile = None -> es = [])).
      { intros g Hg. eexists. split; [exact Hg |]. split; [reflexivity |].
        intros [? | ?]; discriminate. }
      destruct (chat_completions_create w _) as [ | | v];
        [| | destruct v; try destruct (ToString_completes _)];
        inversion E; subst; clear E;
        (split; [discriminate |]); (split; [reflexivity |]);
        apply Hes; reflexivity.
    + rewrite verify_falls_back by (right; assumption).
      intros E; inversion E; subst; clear E.
      split; [discriminate |]. split; [reflexivity |].
      exists []. rewrite app_nil_r. repeat split.
  - rewrite verify_falls_back by (left; assumption).
    intros E; inversion E; subst; clear E.
    split; [discriminate |]. split; [reflexivity |].
    exists []. rewrite app_nil_r. repeat split.
Qed.

(** Every response with status 200 was assembled at the end of the
    handler, from the frame the verification and the payout left. *)
Lemma ok_response_assembled r t :
  post_api_submit cfg w req = (r, t) -> status r = 200 ->
  exists job f1 signature es,
    present (jobId req) = true /\ present (wallet req) = true /\
    jobs_find (lookup_key req) = Some job /\
    verify cfg w req job (log (JobsFind (lookup_key req)) initial_frame)
    = (Normal tt, f1) /\
    pay cfg w req job f1 = (Normal tt, paid signature es f1) /\
    forallb is_chain_call es = true /\
    (poolKeypair cfg = None -> signature = VNull /\ es = []) /\
    r = assembled job (paid signature es f1) /\
    t = calls f1 ++ es.
Proof.
  intros E Hs.
  destruct (present (jobId req)) eqn:Hj;
    [| rewrite submit_intake_fails in E by (left; assumption);
       inversion E; subst; discriminate Hs].
  destruct (present (wallet req)) eqn:Hw;
    [| rewrite submit_intake_fails in E by (right; assumption);
       inversion E; subst; discriminate Hs].
  destruct (jobs_find (lookup_key req)) as [job |] eqn:Hfind;
    [| rewrite (submit_lookup_fails Hj Hw Hfind) in E;
       inversion E; subst; discriminate Hs].
  rewrite (submit_resolved cfg w req job Hj Hw Hfind) in E.
  destruct (verify cfg w req job _) as [c f1] eqn:Hv.
  destruct (verify_frame _ _ _ _ Hv) as (Hret & _ & _).
  destruct c as [[] | r' | e].
  - destruct (pay_frame cfg w req job f1) as (sig & es & Hp & Hes & Hnone).
    rewrite Hp in E. cbn [snd] in E. inversion E; subst; clear E.
    exists job, f1, sig, es. repeat split; try assumption; apply Hnone; assumption.
  - exfalso. apply (Hret r'). reflexivity.
  - inversion E; subst. discriminate Hs.
Qed.

End Pipeline.

(* ================================================================== *)
(** ** Task resolution *)

Section Lookup.

Lemma strict_eq_finite s m e x :
  strict_eq (S754_finite s m e) x = true -> x = S754_finite s m e.
Proof.
  unfold strict_eq, SFeqb, SFcompare.
  destruct x as [s' | s' | | s' m' e'];
    try (destruct s; discriminate); try (destruct s'; discriminate).
  destruct s, s'; try discriminate;
    (destruct (Z.compare e e') eqn:He; try discriminate;
     destruct (Pos.compare_cont Eq m m') eqn:Hm; try discriminate;
     intros _; apply Z.compare_eq in He; apply Pos.compare_eq in Hm;
     subst; reflexivity).
Qed.

Lemma jobs_find_by_id j x :
  In j jobs -> strict_eq (id j) x = true -> jobs_find x = Some j.
Proof.
  intros Hin Heq.
  destruct Hin as [<- | [<- | [<- | []]]];
    apply strict_eq_finite in Heq; subst x; reflexivity.
Qed.

Lemma jobs_find_NaN : jobs_find NaN = None.
Proof. reflexivity. Qed.

Lemma decimal_digit_code c d :
  digit_value 10 c = Some d -> (48 <= c <= 57)%N.
Proof.
  unfold digit_value.
  destruct ((48 <=? Z.of_N c) && (Z.of_N c <=? 57)) eqn:H1.
  - intros _. apply andb_true_iff in H1. lia.
  - destruct ((97 <=? Z.of_N c) && (Z.of_N c <=? 122)) eqn:H2.
    + apply andb_true_iff in H2.
      destruct (Z.of_N c - 87 <? 10) eqn:H3; [lia | discriminate].
    + destruct ((65 <=? Z.of_N c) && (Z.of_N c <=? 90)) eqn:H4.
      * apply andb_true_iff in H4.
        destruct (Z.of_N c - 55 <? 10) eqn:H3; [lia | discriminate].
      * discriminate.
Qed.

Lemma parseInt_decimal_prefix s :
  mathInt 10 (decimal_prefix s) <> 0 ->
  parseInt s = of_Z (mathInt 10 (decimal_prefix s)).
Proof.
  unfold decimal_prefix.
  destruct s as [| c r]; [intros H; exfalso; apply H; reflexivity |].
  destruct (digit_value 10 c) as [d |] eqn:Hd;
    [| cbn [leading_digits]; rewrite Hd; intros H; exfalso; apply H; reflexivity].
  pose proof (decimal_digit_code c d Hd) as Hc.
  intros Hm. unfold parseInt.
  assert (Hws : is_whitespace c = false).
  { unfold is_whitespace.
    repeat match goal with
    | |- context [Z.eqb ?a ?b] => replace (Z.eqb a b) with false by (symmetry; apply Z.eqb_neq; lia)
    end.
    replace (Z.of_N c <=? 8202) with true by (symmetry; apply Z.leb_le; lia).
    replace (8192 <=? Z.of_N c) with false by (symmetry; apply Z.leb_gt; lia).
    reflexivity. }
  cbn [trim_start]. rewrite Hws.
  replace (N.eqb c 45) with false by (symmetry; apply N.eqb_neq; lia).
  replace (N.eqb c 43) with false by (symmetry; apply N.eqb_neq; lia).
  assert (Hr : match r with
               | [] => (10, c :: r)
               | c1 :: r0 =>
                   if (c =? 48)%N && is_x c1 then (16, r0) else (10, c :: r)
               end = (10, c :: r)).
  { destruct r as [| c1 r0]; [reflexivity |].
    destruct ((c =? 48)%N && is_x c1) eqn:Hx; [| reflexivity].
    exfalso. apply Hm. apply andb_true_iff in Hx as [Hc0 Hx].
    apply N.eqb_eq in Hc0. subst c. unfold is_x in Hx.
    apply orb_true_iff in Hx as [Hx | Hx]; apply N.eqb_eq in Hx; subst c1;
      reflexivity. }
  rewrite Hr. cbn [leading_digits] in *. rewrite Hd in *.
  destruct (mathInt 10 (d :: leading_digits 10 r) =? 0) eqn:Hz;
    [apply Z.eqb_eq in Hz; contradiction | reflexivity].
Qed.

Lemma resolved_not_404 cfg w req job :
  present (wallet req) = true ->
  jobs_find (lookup_key req) = Some job ->
  status (fst (post_api_submit cfg w req)) <> 404.
Proof.
  intros Hw Hfind.
  rewrite (submit_resolved cfg w req job (resolved_has_jobId req job Hfind) Hw Hfind).
  destruct (verify cfg w req job _) as [c f1] eqn:Hv.
  destruct (verify_frame _ _ _ _ _ _ _ Hv) as (Hret & _ & _).
  destruct c as [[] | r' | e]; cbn; try discriminate.
  exfalso. apply (Hret r'). reflexivity.
Qed.
End Lookup.

Lemma chain_calls_are_not_judge_calls es :
  forallb is_chain_call es = true -> existsb is_judge_call es = false.
Proof.
  induction es as [| e es IH]; [reflexivity |].
  cbn [forallb existsb]. intros H. apply andb_true_iff in H as [He Hes].
  rewrite (IH Hes). destruct e; try discriminate; reflexivity.
Qed.

Lemma judge_calls_are_not_chain_calls es :
  forallb is_judge_call es = true -> existsb is_chain_call es = false.
Proof.
  induction es as [| e es IH]; [reflexivity |].
  cbn [forallb existsb]. intros H. apply andb_true_iff in H as [He Hes].
  rewrite (IH Hes). destruct e; try discriminate; reflexivity.
Qed.

(* ================================================================== *)
(** ** Numbers: integers below 2^53 and the floor *)

Lemma digits2_pos_bounds p :
  2 ^ (Z.pos (digits2_pos p) - 1) <= Z.pos p < 2 ^ Z.pos (digits2_pos p).
Proof.
  induction p as [p IH | p IH |]; cbn [digits2_pos].
  - rewrite Pos2Z.inj_succ.
    replace (Z.succ (Z.pos (digits2_pos p)) - 1) with (Z.succ (Z.pos (digits2_pos p) - 1)) by lia.
    rewrite !Z.pow_succ_r by lia. lia.
  - rewrite Pos2Z.inj_succ.
    replace (Z.succ (Z.pos (digits2_pos p)) - 1) with (Z.succ (Z.pos (digits2_pos p) - 1)) by lia.
    rewrite !Z.pow_succ_r by lia. lia.
  - cbn. lia.
Qed.

Lemma digits2_pos_iter_xO k p :
  digits2_pos (Pos.iter xO p k) = (digits2_pos p + k)%positive.
Proof.
  revert p. induction k as [| k IH] using Pos.peano_ind; intros p.
  - cbn. lia.
  - rewrite Pos.iter_succ. cbn [digits2_pos]. rewrite IH. lia.
Qed.

Lemma iter_xO_value k p : Z.pos (Pos.iter xO p k) = Z.pos p * 2 ^ Z.pos k.
Proof.
  revert p. induction k as [| k IH] using Pos.peano_ind; intros p.
  - cbn. lia.
  - rewrite Pos.iter_succ, Pos2Z.inj_xO, IH, Pos2Z.inj_succ, Z.pow_succ_r by lia. lia.
Qed.

Lemma binary_round_aux_canonical s m e :
  Z.pos (digits2_pos m) = 53 -> -1074 <= e <= 971 ->
  binary_round_aux prec emax s (Z.pos m) e loc_Exact = S754_finite s m e.
Proof.
  intros Hd He. unfold binary_round_aux, shr_fexp.
  cbn [Zdigits2 shr_record_of_loc]. rewrite Hd.
  assert (Hf : fexp prec emax (53 + e) - e = 0).
  { unfold fexp, emin, prec, emax. lia. }
  rewrite Hf. cbn [shr shr_m loc_of_shr_record round_nearest_even Zdigits2 shr_record_of_loc].
  rewrite Hd, Hf. cbn [shr shr_m].
  replace (e <=? emax - prec) with true; [reflexivity |].
  symmetry. apply Z.leb_le. unfold emax, prec. lia.
Qed.

Lemma binary_round_small s p :
  Z.pos p < 2 ^ 53 ->
  exists m e, binary_round prec emax s p 0 = S754_finite s m e /\
              -52 <= e <= 0 /\ Z.pos m = Z.pos p * 2 ^ (- e).
Proof.
  intros Hp. pose proof (digits2_pos_bounds p) as Hb.
  assert (Hd : Z.pos (digits2_pos p) <= 53).
  { destruct (Z_le_gt_dec (Z.pos (digits2_pos p)) 53) as [H | H]; [exact H |].
    exfalso. assert (2 ^ 53 <= 2 ^ (Z.pos (digits2_pos p) - 1)) by (apply Z.pow_le_mono_r; lia).
    lia. }
  unfold binary_round.
  assert (Hf : fexp prec emax (Z.pos (digits2_pos p) + 0) = Z.pos (digits2_pos p) - 53).
  { unfold fexp, emin, prec, emax. lia. }
  rewrite Hf. unfold shl_align.
  destruct (Z.pos (digits2_pos p) - 53 - 0) as [| k | k] eqn:Hk; try lia.
  - rewrite binary_round_aux_canonical by lia.
    exists p, 0. split; [reflexivity |]. split; [lia |]. cbn. lia.
  - rewrite binary_round_aux_canonical.
    + exists (Pos.iter xO p k), (Z.pos (digits2_pos p) - 53).
      split; [reflexivity |]. split; [lia |].
      rewrite iter_xO_value. f_equal. f_equal. lia.
    + rewrite digits2_pos_iter_xO. lia.
    + lia.
Qed.

Lemma to_integer_scaled (s : bool) m e z :
  -52 <= e <= 0 -> Z.pos m = Z.abs z * 2 ^ (- e) ->
  (if s then z < 0 else 0 < z) ->
  to_integer (S754_finite s m e) = Some z.
Proof.
  intros He Hm Hs. unfold to_integer.
  assert (Hn : (if s then Z.neg m else Z.pos m) = z * 2 ^ (- e)).
  { destruct s.
    - change (Z.neg m) with (- Z.pos m). rewrite Hm. rewrite Z.abs_neq by lia. lia.
    - rewrite Hm. rewrite Z.abs_eq by lia. reflexivity. }
  rewrite Hn.
  destruct (0 <=? e) eqn:H0.
  - apply Z.leb_le in H0. assert (e = 0) by lia. subst e.
    cbn. f_equal. lia.
  - apply Z.leb_gt in H0.
    rewrite Z.land_ones by lia. rewrite Z.mod_mul by (apply Z.pow_nonzero; lia).
    cbn [Z.eqb]. rewrite Z.shiftr_div_pow2 by lia.
    rewrite Z.div_mul by (apply Z.pow_nonzero; lia). reflexivity.
Qed.

Lemma of_Z_exact z : Z.abs z < 2 ^ 53 -> to_integer (of_Z z) = Some z.
Proof.
  intros Hz. unfold of_Z, binary_normalize.
  destruct z as [| p | p].
  - reflexivity.
  - destruct (binary_round_small false p Hz) as (m & e & -> & He & Hm).
    apply to_integer_scaled; [exact He | rewrite Hm; reflexivity | lia].
  - destruct (binary_round_small true p Hz) as (m & e & -> & He & Hm).
    apply to_integer_scaled; [exact He | rewrite Hm; reflexivity | lia].
Qed.

Lemma valid_mantissa_small s m e :
  valid_binary prec emax (S754_finite s m e) = true -> Z.pos m < 2 ^ 53.
Proof.
  cbn [valid_binary]. unfold bounded, canonical_mantissa.
  intros H. apply andb_true_iff in H as [H _]. apply Z.eqb_eq in H.
  pose proof (digits2_pos_bounds m) as [_ Hb].
  assert (Hd : Z.pos (digits2_pos m) <= 53).
  { unfold fexp, emin, prec, emax in H. lia. }
  assert (2 ^ Z.pos (digits2_pos m) <= 2 ^ 53) by (apply Z.pow_le_mono_r; lia).
  lia.
Qed.

(** [Math.floor] of a binary64 value is an integer Number, the one
    [floorZ] names. *)
Lemma Math_floor_integer x :
  valid_binary prec emax x = true -> to_integer (Math_floor x) = floorZ x.
Proof.
  destruct x as [s | s | | s m e]; try reflexivity.
  intros Hv. apply valid_mantissa_small in Hv.
  unfold Math_floor, floorZ. destruct (0 <=? e) eqn:He.
  - unfold to_integer. rewrite He. reflexivity.
  - apply Z.leb_gt in He. rewrite of_Z_exact; [reflexivity |].
    rewrite Z.shiftr_div_pow2 by lia.
    assert (Hp : 0 < 2 ^ (- e)) by (apply Z.pow_pos_nonneg; lia).
    set (n := if s then Z.neg m else Z.pos m).
    assert (Hn : - 2 ^ 53 < n < 2 ^ 53) by (subst n; destruct s; lia).
    assert (H1 : 1 <= 2 ^ (- e)) by lia.
    pose proof (Z.div_mod n (2 ^ (- e)) ltac:(lia)) as Hdm.
    pose proof (Z.mod_pos_bound n (2 ^ (- e)) Hp) as Hmod.
    apply Z.abs_lt. nia.
Qed.

Lemma Qpower_2 e : (0 <= e)%Z -> (Qpower 2 e == inject_Z (2 ^ e))%Q.
Proof. intros He. rewrite (Zpower_Qpower 2 e He). reflexivity. Qed.

(** The integer [floorZ] names is the floor of the exact value. *)
Lemma floorZ_is_floor x z q :
  floorZ x = Some z -> toQ x = Some q ->
  (inject_Z z <= q)%Q /\ (q < inject_Z z + 1)%Q.
Proof.
  destruct x as [s | s | | s m e]; try discriminate.
  - intros Hz Hq. injection Hz as <-. injection Hq as <-.
    split; [apply Qle_refl | reflexivity].
  - cbn [floorZ toQ]. set (n := if s then Z.neg m else Z.pos m).
    intros Hz Hq. injection Hz as <-. injection Hq as <-.
    destruct (0 <=? e) eqn:He.
    + apply Z.leb_le in He. rewrite Z.shiftl_mul_pow2 by exact He.
      rewrite (Qpower_2 e He). rewrite <- inject_Z_mult.
      split; [apply Qle_refl |].
      rewrite <- (Qplus_0_r (inject_Z (n * 2 ^ e))) at 1.
      apply Qplus_lt_r. reflexivity.
    + apply Z.leb_gt in He. rewrite Z.shiftr_div_pow2 by lia.
      assert (Hp : (0 < 2 ^ (- e))%Z) by (apply Z.pow_pos_nonneg; lia).
      assert (Hpow : (Qpower 2 e == / inject_Z (2 ^ (- e)))%Q).
      { replace e with (- - e)%Z at 1 by lia.
        rewrite Qpower_opp. rewrite (Qpower_2 (- e)) by lia. reflexivity. }
      rewrite Hpow.
      pose proof (Z.div_mod n (2 ^ (- e)) ltac:(lia)) as Hdm.
      pose proof (Z.mod_pos_bound n (2 ^ (- e)) Hp) as Hmod.
      assert (Hq0 : (0 < inject_Z (2 ^ (- e)))%Q).
      { unfold Qlt. cbn. lia. }
      split.
      * apply Qle_shift_div_l; [exact Hq0 |].
        rewrite <- inject_Z_mult. rewrite <- Zle_Qle. nia.
      * apply Qlt_shift_div_r; [exact Hq0 |].
        rewrite <- (inject_Z_plus _ 1), <- inject_Z_mult. rewrite <- Zlt_Qlt. nia.
Qed.

Lemma Qtruncate_floor q n :
  (0 <= q)%Q -> (inject_Z n <= q)%Q -> (q < inject_Z n + 1)%Q -> Qtruncate q = n.
Proof.
  destruct q as [a d]. unfold Qle, Qlt, Qtruncate. cbn.
  intros H0 H1 H2.
  rewrite Z.quot_div_nonneg by lia.
  symmetry. apply (Z.div_unique a (Z.pos d) n (a - n * Z.pos d)); lia.
Qed.

(** [Math.floor] on every binary64 value. *)
Lemma Math_floor_law x q :
  valid_binary prec emax x = true -> toQ x = Some q ->
  exists n,
    to_integer (Math_floor x) = Some n /\
    (inject_Z n <= q)%Q /\ (q < inject_Z n + 1)%Q /\
    ((0 <= q)%Q -> n = Qtruncate q).
Proof.
  intros Hv Hq.
  destruct (floorZ x) as [z |] eqn:Hz.
  - exists z. rewrite (Math_floor_integer x Hv).
    destruct (floorZ_is_floor x z q Hz Hq) as [H1 H2].
    repeat split; try assumption.
    intros H0. symmetry. apply Qtruncate_floor; assumption.
  - destruct x; discriminate.
Qed.

(* ================================================================== *)
(** ** The claims *)

(** C6.  A submission whose task identifier or wallet field is missing or
    empty is answered with status 400 and the handler has made no call and
    no catalog lookup by then. *)
Theorem missing_field_is_bad_request cfg w req :
  missing_or_empty (jobId req) \/ missing_or_empty (wallet req) ->
  post_api_submit cfg w req = (bad_request, []) /\ status bad_request = 400.
Proof.
  intros H. split; [| reflexivity].
  apply submit_intake_fails.
  destruct H as [H | H]; [left | right]; apply missing_is_absent; exact H.
Qed.

Lemma missing_field_is_bad_request_witness :
  post_api_submit Scenario.production (Scenario.world CallFails true)
                  Scenario.no_wallet
  = (bad_request, []) /\ status bad_request = 400.
Proof.
  apply missing_field_is_bad_request. right. left. reflexivity.
Defined.

(** C7.  A submission that passes the intake and whose task identifier
    resolves to no task of the catalog is answered with status 404; the only
    thing the handler has done is the lookup: no judgment call, no chain
    call. *)
Theorem unknown_task_is_not_found cfg w req :
  present (jobId req) = true -> present (wallet req) = true ->
  jobs_find (lookup_key req) = None ->
  fst (post_api_submit cfg w req) = not_found /\
  status not_found = 404 /\
  existsb is_judge_call (snd (post_api_submit cfg w req)) = false /\
  existsb is_chain_call (snd (post_api_submit cfg w req)) = false.
Proof.
  intros Hj Hw Hfind. rewrite (submit_lookup_fails cfg w req Hj Hw Hfind).
  repeat split.
Qed.

Lemma unknown_task_is_not_found_witness :
  fst (post_api_submit Scenario.production (Scenario.world CallFails true)
                       Scenario.task99) = not_found /\
  status not_found = 404 /\
  existsb is_judge_call
    (snd (post_api_submit Scenario.production (Scenario.world CallFails true)
                          Scenario.task99)) = false /\
  existsb is_chain_call
    (snd (post_api_submit Scenario.production (Scenario.world CallFails true)
                          Scenario.task99)) = false.
Proof.
  apply unknown_task_is_not_found; reflexivity.
Defined.

(** C2.  For a submission with a wallet whose task identifier resolves to a
    task: when no backend is configured or no image is supplied, the backend
    is not called and the response is the assembled one, with
    [approved = true] and the fixed rationale, whatever the proof text, the
    file and the services are. *)
Theorem fallback_auto_approves cfg w req job :
  present (wallet req) = true ->
  jobs_find (lookup_key req) = Some job ->
  openai cfg = None \/ file req = None ->
  status (fst (post_api_submit cfg w req)) = 200 /\
  body_member (fst (post_api_submit cfg w req)) "approved" = VBool true /\
  body_member (fst (post_api_submit cfg w req)) "reason"
  = VString (js "Auto-approved (demo mode)") /\
  existsb is_judge_call (snd (post_api_submit cfg w req)) = false.
Proof.
  intros Hw Hfind Hfb.
  rewrite (submit_resolved cfg w req job (resolved_has_jobId req job Hfind) Hw Hfind).
  rewrite (verify_falls_back cfg w req job _ Hfb). cbv zeta.
  destruct (pay_frame cfg w req job
              (auto_approve (log (JobsFind (lookup_key req)) initial_frame)))
    as (sig & es & -> & Hes & _).
  cbn [fst snd]. repeat split.
  cbn [paid auto_approve log initial_frame calls app].
  cbn [existsb is_judge_call orb].
  apply chain_calls_are_not_judge_calls. exact Hes.
Qed.

Lemma fallback_auto_approves_witness :
  status (fst (post_api_submit Scenario.production
                 (Scenario.world CallFails true) Scenario.plain)) = 200 /\
  body_member (fst (post_api_submit Scenario.production
                 (Scenario.world CallFails true) Scenario.plain)) "approved"
  = VBool true /\
  body_member (fst (post_api_submit Scenario.production
                 (Scenario.world CallFails true) Scenario.plain)) "reason"
  = VString (js "Auto-approved (demo mode)") /\
  existsb is_judge_call
    (snd (post_api_submit Scenario.production
            (Scenario.world CallFails true) Scenario.plain)) = false.
Proof.
  apply (fallback_auto_approves _ _ _ job1);
    [reflexivity | reflexivity | right; reflexivity].
Defined.

(** The verification reads the configuration through [openai] only and the
    services through the backend only. *)
Lemma verify_reads_backend_only cfg cfg' w w' req job f :
  openai cfg' = openai cfg ->
  chat_completions_create w' = chat_completions_create w ->
  verify cfg' w' req job f = verify cfg w req job f.
Proof.
  intros Ho Hc. unfold verify, ask_backend. rewrite Ho, Hc. reflexivity.
Qed.

(** C3.  Every response assembled at the end of the handler (status 200)
    belongs to a resolved task; the verdict it reports is the one the
    verification left in [approved] (the constant [true] on the fallback
    branch, the backend answer's [approved] member otherwise), and the reward
    it reports is that task's nominal reward when this verdict is truthy and
    0 otherwise.  The reward is the same under every other pool
    configuration and every other behaviour of the chain services. *)
Theorem reward_follows_verdict cfg w req r t :
  post_api_submit cfg w req = (r, t) -> status r = 200 ->
  exists job f1,
    jobs_find (lookup_key req) = Some job /\
    verify cfg w req job (log (JobsFind (lookup_key req)) initial_frame)
    = (Normal tt, f1) /\
    body_member r "approved" = approved f1 /\
    body_member r "reward"
    = (if ToBoolean (approved f1) then VNumber (reward job)
       else VNumber (of_Z 0)) /\
    (openai cfg = None \/ file req = None ->
     approved f1 = VBool true /\ body_member r "reward" = VNumber (reward job)) /\
    (forall client imageFile v,
       openai cfg = Some client -> file req = Some imageFile ->
       chat_completions_create w (chat_request job req imageFile) = Parses v ->
       approved f1 = property v "approved") /\
    (forall cfg' w',
       openai cfg' = openai cfg ->
       chat_completions_create w' = chat_completions_create w ->
       status (fst (post_api_submit cfg' w' req)) = 200 /\
       body_member (fst (post_api_submit cfg' w' req)) "reward"
       = body_member r "reward").
Proof.
  intros E Hs.
  destruct (ok_response_assembled cfg w req r t E Hs)
    as (job & f1 & sig & es & Hj & Hw & Hfind & Hv & _ & _ & _ & -> & _).
  exists job, f1.
  split; [exact Hfind |]. split; [exact Hv |].
  split; [reflexivity |]. split; [reflexivity |].
  split; [| split].
  - intros Hfb. rewrite (verify_falls_back cfg w req job _ Hfb) in Hv.
    injection Hv as <-. split; reflexivity.
  - intros client imageFile v Ho Hf Hr.
    rewrite (verify_asks cfg w req job _ client imageFile Ho Hf) in Hv.
    cbv zeta in Hv. rewrite Hr in Hv.
    destruct v; try discriminate Hv;
      destruct (ToString_completes _); try discriminate Hv;
      injection Hv as <-; reflexivity.
  - intros cfg' w' Ho Hc.
    rewrite (submit_resolved cfg' w' req job Hj Hw Hfind).
    rewrite (verify_reads_backend_only cfg cfg' w w' req job _ Ho Hc), Hv.
    cbv zeta.
    destruct (pay_frame cfg' w' req job f1) as (sig' & es' & -> & _).
    split; reflexivity.
Qed.

Lemma reward_follows_verdict_witness :
  let w := Scenario.world (Parses Cases.refusal) true in
  exists job f1,
    jobs_find (lookup_key Scenario.with_image) = Some job /\
    verify Scenario.production w Scenario.with_image job
           (log (JobsFind (lookup_key Scenario.with_image)) initial_frame)
    = (Normal tt, f1) /\
    body_member (fst (post_api_submit Scenario.production w Scenario.with_image))
                "approved" = approved f1 /\
    body_member (fst (post_api_submit Scenario.production w Scenario.with_image))
                "reward"
    = (if ToBoolean (approved f1) then VNumber (reward job)
       else VNumber (of_Z 0)) /\
    (openai Scenario.production = None \/ file Scenario.with_image = None ->
     approved f1 = VBool true /\
     body_member (fst (post_api_submit Scenario.production w Scenario.with_image))
                 "reward" = VNumber (reward job)) /\
    (forall client imageFile v,
       openai Scenario.production = Some client ->
       file Scenario.with_image = Some imageFile ->
       chat_completions_create w (chat_request job Scenario.with_image imageFile)
       = Parses v ->
       approved f1 = property v "approved") /\
    (forall cfg' w',
       openai cfg' = openai Scenario.production ->
       chat_completions_create w' = chat_completions_create w ->
       status (fst (post_api_submit cfg' w' Scenario.with_image)) = 200 /\
       body_member (fst (post_api_submit cfg' w' Scenario.with_image)) "reward"
       = body_member
           (fst (post_api_submit Scenario.production w Scenario.with_image))
           "reward").
Proof.
  apply (reward_follows_verdict Scenario.production
           (Scenario.world (Parses Cases.refusal) true) Scenario.with_image _
           (snd (post_api_submit Scenario.production
                   (Scenario.world (Parses Cases.refusal) true)
                   Scenario.with_image)));
    [apply surjective_pairing | reflexivity].
Defined.

(** C8.  With no pool account configured, every approved submission is
    answered with [txSignature = null], and the handler makes no chain call:
    no address is constructed, nothing is sent, nothing is confirmed. *)
Theorem no_pool_no_chain_call cfg w req r t :
  poolKeypair cfg = None ->
  post_api_submit cfg w req = (r, t) -> status r = 200 ->
  ToBoolean (body_member r "approved") = true ->
  body_member r "txSignature" = VNull /\ existsb is_chain_call t = false.
Proof.
  intros Hpool E Hs _.
  destruct (ok_response_assembled cfg w req r t E Hs)
    as (job & f1 & sig & es & _ & _ & _ & Hv & _ & _ & Hnone & -> & ->).
  destruct (Hnone Hpool) as [-> ->].
  split; [reflexivity |].
  destruct (verify_frame cfg w req job _ _ _ Hv) as (_ & _ & es' & -> & Hes' & _).
  rewrite app_nil_r. cbn [log initial_frame calls app].
  cbn [existsb is_chain_call orb].
  apply judge_calls_are_not_chain_calls. exact Hes'.
Qed.

Lemma no_pool_no_chain_call_witness :
  body_member
    (fst (post_api_submit Scenario.demo_without_pool
            (Scenario.world CallFails true) Scenario.plain)) "txSignature"
  = VNull /\
  existsb is_chain_call
    (snd (post_api_submit Scenario.demo_without_pool
            (Scenario.world CallFails true) Scenario.plain)) = false.
Proof.
  apply (no_pool_no_chain_call Scenario.demo_without_pool
           (Scenario.world CallFails true) Scenario.plain);
    [reflexivity | apply surjective_pairing | reflexivity | reflexivity].
Defined.

(** C1 (the code differs).  Task 1 is claimed with a valid address, no
    backend is configured (so the verdict is the automatic approval) and a
    pool is; the transfer is submitted and [confirmTransaction] throws.  The
    response reports [approved = true] and the reward 0.05, and its
    [txSignature] is the signature [sendTransaction] returned, not [null]:
    the variable is assigned before the confirmation is awaited. *)
Theorem unconfirmed_transfer_reports_signature :
  let w := Scenario.world CallFails false in
  let r := fst (post_api_submit Scenario.demo_with_pool w Scenario.plain) in
  let t := snd (post_api_submit Scenario.demo_with_pool w Scenario.plain) in
  confirmTransaction w Scenario.signature = false /\
  t = [ JobsFind (of_Z 1);
        NewPublicKey Scenario.claimant;
        SendTransaction (transfer Scenario.pool Scenario.claimant job1);
        ConfirmTransaction Scenario.signature ] /\
  status r = 200 /\
  body_member r "approved" = VBool true /\
  body_member r "reward" = VNumber (reward job1) /\
  body_member r "txSignature" = VString Scenario.signature /\
  body_member r "txSignature" <> VNull.
Proof.
  cbv zeta. repeat split; try reflexivity. vm_compute. discriminate.
Qed.

(** The same for every submission: once the verdict is truthy, a pool is
    configured, the address is accepted and the transfer is submitted, the
    response carries the submitted signature whether the confirmation
    resolves or throws. *)
Lemma submitted_signature_is_reported cfg w req job f1 pool key sig :
  present (wallet req) = true ->
  jobs_find (lookup_key req) = Some job ->
  verify cfg w req job (log (JobsFind (lookup_key req)) initial_frame)
  = (Normal tt, f1) ->
  ToBoolean (approved f1) = true ->
  poolKeypair cfg = Some pool ->
  new_PublicKey w (ToString (wallet req)) = Some key ->
  sendTransaction w (transfer pool key job) = Some sig ->
  body_member (fst (post_api_submit cfg w req)) "txSignature" = VString sig /\
  body_member (fst (post_api_submit cfg w req)) "reward" = VNumber (reward job) /\
  In (ConfirmTransaction sig) (snd (post_api_submit cfg w req)).
Proof.
  intros Hw Hfind Hv Ha Hpool Hkey Hsend.
  rewrite (submit_resolved cfg w req job (resolved_has_jobId req job Hfind) Hw Hfind).
  rewrite Hv. rewrite (pay_runs cfg w req job f1 pool Ha Hpool).
  cbv zeta. rewrite Hkey, Hsend. cbn [fst snd].
  split; [reflexivity |]. split.
  - unfold body_member, assembled, paid. cbn [body res_json approved].
    change (own (js "reward") _) with
      (Some (if ToBoolean (approved f1) then VNumber (reward job)
             else VNumber (of_Z 0))).
    rewrite Ha. reflexivity.
  - cbn [paid calls]. apply in_or_app. right. right. right. left. reflexivity.
Qed.

(** C5, as stated, fails.  The backend is configured, an image is supplied,
    and the backend's content parses to an object whose [approved] member is
    the string [false]: not the shape [{approved: bool, reason: string}].
    The handler answers with status 200, reports the string as the verdict,
    treats it as an approval (a non-empty string is truthy) and pays. *)
Lemma misshaped_verdict_is_accepted :
  let w := Scenario.world (Parses Scenario.stringly) true in
  let r := fst (post_api_submit Scenario.production w Scenario.with_image) in
  let t := snd (post_api_submit Scenario.production w Scenario.with_image) in
  verdict_shaped Scenario.stringly = false /\
  existsb is_judge_call t = true /\
  status r = 200 /\
  body_member r "approved" = VString (js "false") /\
  body_member r "reward" = VNumber (reward job1) /\
  body_member r "txSignature" = VString Scenario.signature.
Proof.
  cbv zeta. repeat split; reflexivity.
Qed.

(** An empty object is taken as a rejection, again with status 200. *)
Example empty_verdict_is_a_rejection :
  let w := Scenario.world (Parses (VObject [])) true in
  let r := fst (post_api_submit Scenario.production w Scenario.with_image) in
  status r = 200 /\
  body_member r "approved" = VUndefined /\
  body_member r "reason" = VUndefined /\
  body_member r "reward" = VNumber (of_Z 0) /\
  body_member r "txSignature" = VNull.
Proof.
  cbv zeta. repeat split; reflexivity.
Qed.

(** The members of the assembled object that are written to the JSON
    sent. *)
Lemma sent_keys_assembled job f :
  sent_keys (body (assembled job f))
  = js "success"
    :: (if is_undefined (approved f) then [] else [js "approved"])
    ++ (if is_undefined (reason f) then [] else [js "reason"])
    ++ js "reward"
    :: (if is_undefined (txSignature f) then [] else [js "txSignature"]).
Proof.
  unfold sent_keys, assembled, res_json. cbn [body filter snd].
  destruct (ToBoolean (approved f));
    destruct (is_undefined (approved f)),
             (is_undefined (reason f)),
             (is_undefined (txSignature f)); reflexivity.
Qed.

Lemma is_undefined_iff v : is_undefined v = false <-> v <> VUndefined.
Proof.
  destruct v; split; intros H; try reflexivity; try discriminate;
    contradiction.
Qed.

Lemma sent_verdict_members job f :
  (In (js "approved") (sent_keys (body (assembled job f)))
   <-> approved f <> VUndefined) /\
  (In (js "reason") (sent_keys (body (assembled job f)))
   <-> reason f <> VUndefined).
Proof.
  rewrite sent_keys_assembled, <- !is_undefined_iff.
  destruct (is_undefined (approved f)),
           (is_undefined (reason f)),
           (is_undefined (txSignature f));
    cbn [app In]; split; split; intros H; try reflexivity; try discriminate H;
    auto;
    repeat (destruct H as [H | H]; [vm_compute in H; discriminate H |]);
    destruct H.
Qed.

(** C5, amended.  When the backend is consulted, its answer is parsed as
    JSON and not checked against a shape.  A failed call, content that is not
    JSON, content that parses to [null], and a [reason] member that cannot
    be converted to a string for the log of line 150 (an object with a
    member named [toString], also inside an array) end in the error response
    with status 500, after the judgment call alone: nothing is paid.  Any
    other parsed value is accepted: the response has status 200, the object
    handed to [res.json] carries the value's [approved] and [reason] members
    as they are, each being written to the JSON sent unless it is
    [undefined], and the reward follows the truthiness of [approved]. *)
Theorem reply_is_taken_as_parsed cfg w req job client imageFile :
  present (wallet req) = true ->
  jobs_find (lookup_key req) = Some job ->
  openai cfg = Some client -> file req = Some imageFile ->
  let question := chat_request job req imageFile in
  let r := fst (post_api_submit cfg w req) in
  let t := snd (post_api_submit cfg w req) in
  let fails :=
    r = server_error /\ status r = 500 /\
    t = [JobsFind (lookup_key req); ChatCreate question] in
  match chat_completions_create w question with
  | CallFails | Unreadable | Parses VNull | Parses VUndefined => fails
  | Parses v =>
      if ToString_completes (property v "reason") then
        status r = 200 /\
        body_member r "approved" = property v "approved" /\
        body_member r "reason" = property v "reason" /\
        body_member r "reward"
        = (if ToBoolean (property v "approved") then VNumber (reward job)
           else VNumber (of_Z 0)) /\
        (In (js "approved") (sent_keys (body r))
         <-> property v "approved" <> VUndefined) /\
        (In (js "reason") (sent_keys (body r))
         <-> property v "reason" <> VUndefined)
      else fails
  end.
Proof.
  intros Hw Hfind Ho Hf. cbv zeta.
  rewrite (submit_resolved cfg w req job (resolved_has_jobId req job Hfind) Hw Hfind).
  rewrite (verify_asks cfg w req job _ client imageFile Ho Hf). cbv zeta.
  destruct (chat_completions_create w (chat_request job req imageFile))
    as [ | | v]; [repeat split | repeat split |].
  assert (Hok : forall f,
            reason f = property v "reason" ->
            approved f = property v "approved" ->
            let f2 := snd (pay cfg w req job f) in
            status (assembled job f2) = 200 /\
            body_member (assembled job f2) "approved" = property v "approved" /\
            body_member (assembled job f2) "reason" = property v "reason" /\
            body_member (assembled job f2) "reward"
            = (if ToBoolean (property v "approved") then VNumber (reward job)
               else VNumber (of_Z 0)) /\
            (In (js "approved") (sent_keys (body (assembled job f2)))
             <-> property v "approved" <> VUndefined) /\
            (In (js "reason") (sent_keys (body (assembled job f2)))
             <-> property v "reason" <> VUndefined)).
  { intros f Hr Ha. cbv zeta.
    destruct (pay_frame cfg w req job f) as (sig & es & -> & _). cbn [snd].
    pose proof (sent_verdict_members job (paid sig es f)) as Hsent.
    cbn [paid approved reason] in Hsent. rewrite Ha, Hr in Hsent.
    destruct Hsent as [Hsa Hsr].
    split; [reflexivity |].
    split; [rewrite <- Ha; reflexivity |].
    split; [rewrite <- Hr; reflexivity |].
    split; [rewrite <- Ha; reflexivity |].
    split; assumption. }
  destruct v; try (repeat split; fail);
    (destruct (ToString_completes _); [| repeat split]);
    cbn [fst snd]; apply Hok; reflexivity.
Qed.

Lemma reply_is_taken_as_parsed_witness :
  let w := Scenario.world (Parses Scenario.stringly) true in
  let r := fst (post_api_submit Scenario.production w Scenario.with_image) in
  status r = 200 /\
  body_member r "approved" = property Scenario.stringly "approved" /\
  body_member r "reason" = property Scenario.stringly "reason" /\
  body_member r "reward"
  = (if ToBoolean (property Scenario.stringly "approved")
     then VNumber (reward job1) else VNumber (of_Z 0)) /\
  (In (js "approved") (sent_keys (body r))
   <-> property Scenario.stringly "approved" <> VUndefined) /\
  (In (js "reason") (sent_keys (body r))
   <-> property Scenario.stringly "reason" <> VUndefined).
Proof.
  exact (reply_is_taken_as_parsed Scenario.production
           (Scenario.world (Parses Scenario.stringly) true)
           Scenario.with_image job1 {| apiKey := js "sk-test" |} Scenario.png
           eq_refl eq_refl eq_refl eq_refl).
Defined.

(** A rationale that cannot be logged: the answer is the error response and
    nothing is paid, although the backend approved and a pool is
    configured. *)
Example unprintable_reason_is_an_error :
  let w := Scenario.world (Parses Edge.unprintable) true in
  post_api_submit Scenario.production w Scenario.with_image
  = (server_error,
     [ JobsFind (of_Z 1);
       ChatCreate (chat_request job1 Scenario.with_image Scenario.png) ]).
Proof. reflexivity. Qed.

(** C4.  The payout is [Math.floor] of the binary64 product of the reward
    and 10^9.  For every task whose product is a binary64 value, it is an
    integer number of base units, not larger than the product and less than
    one unit below it, hence the product truncated toward zero for a
    non-negative reward: the conversion never rounds up.  For every task of
    the catalog it is the nominal reward (the decimal literal) times 10^9,
    truncated, and not larger than that exact amount; 0.05 gives 50,000,000
    and 0.15 gives 150,000,000. *)
Theorem payout_truncates_and_catalog_is_exact :
  (forall j q,
     valid_binary prec emax (mul (reward j) LAMPORTS_PER_SOL) = true ->
     toQ (mul (reward j) LAMPORTS_PER_SOL) = Some q ->
     exists n,
       to_integer (lamports_of j) = Some n /\
       (inject_Z n <= q)%Q /\ (q < inject_Z n + 1)%Q /\
       ((0 <= q)%Q -> n = Qtruncate q)) /\
  Forall (fun j =>
            exists n,
              to_integer (lamports_of j) = Some n /\
              n = Qtruncate (nominal_base_units j) /\
              (inject_Z n <= nominal_base_units j)%Q)
         jobs /\
  (MV (reward_literal job1) == 5 # 100)%Q /\
  to_integer (lamports_of job1) = Some 50000000 /\
  (MV (reward_literal job3) == 15 # 100)%Q /\
  to_integer (lamports_of job3) = Some 150000000.
Proof.
  split; [| split].
  - intros j q Hv Hq. unfold lamports_of.
    apply Math_floor_law; assumption.
  - apply Forall_forall. intros j Hin.
    destruct Hin as [<- | [<- | [<- | []]]];
      eexists; (split; [vm_compute; reflexivity |]);
      (split; [vm_compute; reflexivity | vm_compute; discriminate]).
  - repeat split.
Qed.

Lemma payout_truncates_and_catalog_is_exact_witness :
  exists q n,
    toQ (mul (reward Edge.odd_job) LAMPORTS_PER_SOL) = Some q /\
    to_integer (lamports_of Edge.odd_job) = Some n /\
    (inject_Z n <= q)%Q /\ (q < inject_Z n + 1)%Q /\
    n = Qtruncate q /\ n = 2009999999 /\
    (q < inject_Z 2010000000)%Q.
Proof.
  assert (Hv : valid_binary prec emax (mul (reward Edge.odd_job) LAMPORTS_PER_SOL)
               = true) by (vm_compute; reflexivity).
  destruct (toQ (mul (reward Edge.odd_job) LAMPORTS_PER_SOL)) as [q |] eqn:Hq;
    [| vm_compute in Hq; discriminate Hq].
  destruct (proj1 payout_truncates_and_catalog_is_exact Edge.odd_job q Hv Hq)
    as (n & Hn & Hle & Hlt & Htr).
  assert (Hn' : n = 2009999999).
  { vm_compute in Hn. injection Hn as <-. reflexivity. }
  assert (Hq' : (q < inject_Z 2010000000)%Q).
  { vm_compute in Hq. injection Hq as <-. vm_compute. reflexivity. }
  assert (H0 : (0 <= q)%Q).
  { vm_compute in Hq. injection Hq as <-. vm_compute. discriminate. }
  exists q, n. split; [reflexivity |]. split; [exact Hn |].
  split; [exact Hle |]. split; [exact Hlt |].
  split; [exact (Htr H0) |]. split; [exact Hn' | exact Hq'].
Defined.

(** C9.  For every task of the catalog, the listing contains the object
    built for it, whose own properties are exactly [id], [title],
    [description], [reward], [difficulty] and [timeEstimate]; no object of
    the listing has a [verificationPrompt] property. *)
Theorem listing_omits_verification_prompt j :
  In j jobs ->
  exists items,
    body get_api_jobs = VArray items /\
    In (public_view j) items /\
    own_keys (public_view j)
    = [js "id"; js "title"; js "description"; js "reward"; js "difficulty";
       js "timeEstimate"] /\
    property (public_view j) "verificationPrompt" = VUndefined /\
    forall o, In o items -> ~ In (js "verificationPrompt") (own_keys o).
Proof.
  intros Hin. exists (map public_view jobs).
  split; [reflexivity |]. split; [apply in_map; exact Hin |].
  split; [reflexivity |]. split; [reflexivity |].
  intros o Ho. apply in_map_iff in Ho as (j' & <- & _).
  cbn [own_keys public_view map fst]. intros H.
  repeat (destruct H as [H | H]; [vm_compute in H; discriminate H |]).
  exact H.
Qed.

Lemma listing_omits_verification_prompt_witness :
  exists items,
    body get_api_jobs = VArray items /\
    In (public_view job2) items /\
    own_keys (public_view job2)
    = [js "id"; js "title"; js "description"; js "reward"; js "difficulty";
       js "timeEstimate"] /\
    property (public_view job2) "verificationPrompt" = VUndefined /\
    forall o, In o items -> ~ In (js "verificationPrompt") (own_keys o).
Proof.
  apply (listing_omits_verification_prompt job2). right. left. reflexivity.
Defined.

(** C10.  The task is looked up by [parseInt(jobId)].  A [jobId] whose
    leading decimal digits denote the id of a catalog task resolves to that
    task, and a submission carrying it that passes the intake is not
    answered with 404.  A [jobId] in which [parseInt] finds no integer
    prefix resolves to no task, and a submission carrying it that passes the
    intake is answered with 404. *)
Theorem resolution_by_integer_prefix s :
  (forall j, In j jobs ->
     decimal_prefix s <> [] ->
     strict_eq (id j) (of_Z (mathInt 10 (decimal_prefix s))) = true ->
     jobs_find (parseInt s) = Some j /\
     forall cfg w req,
       jobId req = Some s -> present (wallet req) = true ->
       status (fst (post_api_submit cfg w req)) <> 404) /\
  (parseInt s = NaN ->
     jobs_find (parseInt s) = None /\
     forall cfg w req,
       jobId req = Some s -> present (jobId req) = true ->
       present (wallet req) = true ->
       post_api_submit cfg w req = (not_found, [JobsFind NaN])).
Proof.
  split.
  - intros j Hin _ Heq.
    assert (Hm : mathInt 10 (decimal_prefix s) <> 0).
    { intros Hz. rewrite Hz in Heq.
      destruct Hin as [<- | [<- | [<- | []]]]; discriminate Heq. }
    assert (Hfind : jobs_find (parseInt s) = Some j).
    { rewrite (parseInt_decimal_prefix s Hm).
      apply jobs_find_by_id; assumption. }
    split; [exact Hfind |].
    intros cfg w req Hs Hw.
    apply (resolved_not_404 cfg w req j Hw).
    unfold lookup_key. rewrite Hs. exact Hfind.
  - intros Hnan. rewrite Hnan. split; [reflexivity |].
    intros cfg w req Hs Hj Hw.
    assert (Hkey : lookup_key req = NaN).
    { unfold lookup_key. rewrite Hs. exact Hnan. }
    rewrite <- Hkey. apply submit_lookup_fails; try assumption.
    rewrite Hkey. reflexivity.
Qed.

Lemma resolution_by_integer_prefix_witness :
  (jobs_find (parseInt (js "1abc")) = Some job1 /\
   status (fst (post_api_submit Scenario.demo_without_pool
                  (Scenario.world CallFails true) Scenario.task_1abc)) <> 404) /\
  (jobs_find (parseInt (js "abc")) = None /\
   post_api_submit Scenario.demo_without_pool
     (Scenario.world CallFails true) Scenario.task_abc
   = (not_found, [JobsFind NaN])).
Proof.
  split.
  - destruct (proj1 (resolution_by_integer_prefix (js "1abc")) job1)
      as [H1 H2].
    + left. reflexivity.
    + discriminate.
    + reflexivity.
    + split; [exact H1 |]. apply H2; reflexivity.
  - destruct (proj2 (resolution_by_integer_prefix (js "abc")) eq_refl)
      as [H1 H2].
    split; [exact H1 |]. apply H2; reflexivity.
Defined.

(** The identifiers [1abc] and [01] resolve to task 1; a hexadecimal
    prefix and leading white space are read as well. *)
Example resolution_samples :
  map (fun s => jobs_find (parseInt (js s))) ["1abc"; "01"; "0x1"; " 1"]%string
  = [Some job1; Some job1; Some job1; Some job1] /\
  map (fun s => jobs_find (parseInt (js s))) ["abc"; "99"; "-1"; "0x"]%string
  = [None; None; None; None].
Proof. split; reflexivity. Qed.

(** The intake comes first: without a wallet the answer is 400 whether the
    task identifier names a task or not. *)
Example intake_precedes_lookup :
  fst (post_api_submit Scenario.demo_without_pool
         (Scenario.world CallFails true) Scenario.no_wallet) = bad_request /\
  fst (post_api_submit Scenario.demo_without_pool
         (Scenario.world CallFails true)
         {| jobId := Some (js "99"); wallet := None;
            proofText := None; file := None |}) = bad_request.
Proof. split; reflexivity. Qed.


(* ================================================================== *)
(** ** The handler, case by case *)

Section Outcome.

Variable cfg : Config.
Variable w : World.
Variable req : Request.

Lemma verify_is_verdict job f :
  match verdict_of cfg w req job with
  | (Some (a, rs), judge) =>
      verify cfg w req job f
      = (Normal tt, {| approved := a; reason := rs;
                       txSignature := txSignature f;
                       calls := calls f ++ judge |})
  | (None, judge) =>
      exists e f',
        verify cfg w req job f = (Throw e, f') /\
        calls f' = calls f ++ judge
  end.
Proof.
  unfold verdict_of.
  destruct (openai cfg) as [client |] eqn:Ho.
  - destruct (file req) as [imageFile |] eqn:Hf.
    + rewrite (verify_asks cfg w req job f client imageFile Ho Hf). cbv zeta.
      destruct (chat_completions_create w (chat_request job req imageFile))
        as [ | | v];
        [eexists _, _; split; reflexivity
        | eexists _, _; split; reflexivity |].
      destruct v; try (eexists _, _; split; reflexivity);
        destruct (ToString_completes _); try reflexivity;
        eexists _, _; split; reflexivity.
    + rewrite verify_falls_back by (right; assumption).
      unfold auto_approve. rewrite app_nil_r. reflexivity.
  - rewrite verify_falls_back by (left; assumption).
    unfold auto_approve. rewrite app_nil_r. reflexivity.
Qed.

Lemma pay_is_payout job f :
  pay cfg w req job f
  = (Normal tt,
     paid (fst (payout_of cfg w req job (approved f)))
          (snd (payout_of cfg w req job (approved f))) f).
Proof.
  unfold payout_of.
  destruct (ToBoolean (approved f)) eqn:Ha.
  - destruct (poolKeypair cfg) as [pool |] eqn:Hp.
    + rewrite (pay_runs cfg w req job f pool Ha Hp). cbv zeta.
      destruct (new_PublicKey w (ToString (wallet req))) as [key |];
        [| reflexivity].
      destruct (sendTransaction w (transfer pool key job)); reflexivity.
    + apply pay_skips. right. assumption.
  - apply pay_skips. left. assumption.
Qed.

(** The monadic handler and the decision table agree on every input. *)
Lemma submit_is_outcome : post_api_submit cfg w req = outcome cfg w req.
Proof.
  unfold outcome.
  destruct (present (jobId req)) eqn:Hj;
    [| apply submit_intake_fails; left; assumption].
  destruct (present (wallet req)) eqn:Hw;
    [| apply submit_intake_fails; right; assumption].
  cbn [andb negb]. cbv zeta.
  destruct (jobs_find (lookup_key req)) as [job |] eqn:Hfind;
    [| apply submit_lookup_fails; assumption].
  rewrite (submit_resolved cfg w req job Hj Hw Hfind).
  pose proof (verify_is_verdict job (log (JobsFind (lookup_key req)) initial_frame))
    as Hv.
  destruct (verdict_of cfg w req job) as [[[a rs] |] judge].
  - rewrite Hv. cbv zeta. rewrite pay_is_payout. reflexivity.
  - destruct Hv as (e & f' & -> & Hc). rewrite Hc. reflexivity.
Qed.

End Outcome.

Section OutcomeFacts.

Variable cfg : Config.
Variable w : World.
Variable req : Request.

Lemma verdict_calls job :
  snd (verdict_of cfg w req job) = [] \/
  exists imageFile,
    openai cfg <> None /\ file req = Some imageFile /\
    snd (verdict_of cfg w req job) = [ChatCreate (chat_request job req imageFile)].
Proof.
  unfold verdict_of.
  destruct (openai cfg) as [client |]; [| left; reflexivity].
  destruct (file req) as [imageFile |]; [| left; reflexivity].
  right. exists imageFile. repeat split. discriminate.
Qed.

Lemma payout_table job a :
  let address := ToString (wallet req) in
  (payout_of cfg w req job a = (VNull, []) /\
   (ToBoolean a = false \/ poolKeypair cfg = None))
  \/
  (exists pool,
     ToBoolean a = true /\ poolKeypair cfg = Some pool /\
     ((new_PublicKey w address = None /\
       payout_of cfg w req job a = (VNull, [NewPublicKey address]))
      \/
      (exists key,
         new_PublicKey w address = Some key /\
         ((sendTransaction w (transfer pool key job) = None /\
           payout_of cfg w req job a
           = (VNull, [NewPublicKey address;
                      SendTransaction (transfer pool key job)]))
          \/
          (exists s,
             sendTransaction w (transfer pool key job) = Some s /\
             payout_of cfg w req job a
             = (VString s,
                [NewPublicKey address;
                 SendTransaction (transfer pool key job);
                 ConfirmTransaction s])))))).
Proof.
  cbv zeta. unfold payout_of.
  destruct (ToBoolean a); [| left; auto].
  destruct (poolKeypair cfg) as [pool |]; [| left; auto].
  right. exists pool. split; [reflexivity |]. split; [reflexivity |].
  destruct (new_PublicKey w (ToString (wallet req))) as [key |]; [| left; auto].
  right. exists key. split; [reflexivity |]. cbv zeta.
  destruct (sendTransaction w (transfer pool key job)) as [s |]; [| left; auto].
  right. exists s. auto.
Qed.

End OutcomeFacts.

Ltac outcome_cases cfg w req :=
  rewrite ?(submit_is_outcome cfg w req) in *; unfold outcome in *;
  destruct (present (jobId req)) eqn:Hj;
  destruct (present (wallet req)) eqn:Hw;
  cbn [andb negb] in *; cbv zeta in *;
  [ destruct (jobs_find (lookup_key req)) as [job |] eqn:Hfind;
    [ destruct (verdict_of cfg w req job) as [[[a rs] |] judge] eqn:Hv | ]
  | | | ];
  cbn [fst snd] in *.

Lemma judge_part_has_no_chain_call cfg w req job :
  existsb is_chain_call (snd (verdict_of cfg w req job)) = false /\
  forall e, In e (snd (verdict_of cfg w req job)) -> is_judge_call e = true.
Proof.
  destruct (verdict_calls cfg w req job) as [-> | (img & _ & _ & ->)].
  - split; [reflexivity | intros e []].
  - split; [reflexivity |]. intros e [<- | []]. reflexivity.
Qed.

(* ================================================================== *)
(** ** Further properties of [POST /api/submit] *)

(** X1.  Whenever the handler runs, the object it hands to [res.json] is
    either the assembled one, with status 200 and the members [success]
    ([true]), [approved], [reason], [reward] (a Number) and [txSignature]
    ([null] or a string), or one of the three error objects, with status
    400, 404 or 500 and the single member [error].  Of the assembled object
    the JSON sent always has [success], [reward] and [txSignature], and has
    [approved] and [reason] exactly when they are not [undefined]. *)
Theorem response_shapes cfg w req :
  let r := fst (post_api_submit cfg w req) in
  (status r = 200 /\
   own_keys (body r)
   = [js "success"; js "approved"; js "reason"; js "reward"; js "txSignature"] /\
   body_member r "success" = VBool true /\
   (exists n, body_member r "reward" = VNumber n) /\
   (body_member r "txSignature" = VNull \/
    exists s, body_member r "txSignature" = VString s) /\
   sent_keys (body r)
   = js "success"
     :: (if is_undefined (body_member r "approved") then [] else [js "approved"])
     ++ (if is_undefined (body_member r "reason") then [] else [js "reason"])
     ++ [js "reward"; js "txSignature"])
  \/
  ((r = bad_request \/ r = not_found \/ r = server_error) /\
   In (status r) [400; 404; 500] /\
   own_keys (body r) = [js "error"] /\
   sent_keys (body r) = [js "error"]).
Proof.
  cbv zeta. outcome_cases cfg w req.
  - left. split; [reflexivity |]. split; [reflexivity |].
    split; [reflexivity |].
    change (body_member (assembled job _) "txSignature")
      with (fst (payout_of cfg w req job a)).
    change (body_member (assembled job _) "approved") with a.
    change (body_member (assembled job _) "reason") with rs.
    rewrite sent_keys_assembled. cbn [approved reason txSignature].
    assert (Hsig : fst (payout_of cfg w req job a) = VNull \/
                   exists s, fst (payout_of cfg w req job a) = VString s).
    { destruct (payout_table cfg w req job a)
        as [[-> _] | (pool & _ & _ & [[_ ->] | (key & _ & [[_ ->] | (s & _ & ->)])])];
        cbn [fst]; [left | left | left | right; exists s]; reflexivity. }
    split.
    { unfold body_member, assembled. cbn [body res_json approved].
      change (own (js "reward") _) with
        (Some (if ToBoolean a then VNumber (reward job) else VNumber (of_Z 0))).
      destruct (ToBoolean a); eexists; reflexivity. }
    split; [exact Hsig |].
    destruct Hsig as [-> | [s ->]]; reflexivity.
  - right. split; [auto |]. split; [cbn; auto |]. split; reflexivity.
  - right. split; [auto |]. split; [cbn; auto |]. split; reflexivity.
  - right. split; [auto |]. split; [cbn; auto |]. split; reflexivity.
  - right. split; [auto |]. split; [cbn; auto |]. split; reflexivity.
  - right. split; [auto |]. split; [cbn; auto |]. split; reflexivity.
Qed.

(** A backend answer without members: three members are sent. *)
Example empty_verdict_sends_three_members :
  let w := Scenario.world (Parses (VObject [])) true in
  sent_keys (body (fst (post_api_submit Scenario.production w Scenario.with_image)))
  = [js "success"; js "reward"; js "txSignature"].
Proof. reflexivity. Qed.

(** X2.  A chain call is made only for a submission that ends with status
    200 and a truthy verdict, under a configured pool: a run that ends in an
    error response has touched no chain service, and a failing chain service
    never turns the answer into an error. *)
Theorem chain_calls_need_approval cfg w req :
  existsb is_chain_call (snd (post_api_submit cfg w req)) = true ->
  status (fst (post_api_submit cfg w req)) = 200 /\
  ToBoolean (body_member (fst (post_api_submit cfg w req)) "approved") = true /\
  poolKeypair cfg <> None.
Proof.
  outcome_cases cfg w req; intros H; try discriminate H.
  - cbn [existsb is_chain_call orb] in H. rewrite existsb_app in H.
    pose proof (judge_part_has_no_chain_call cfg w req job) as [Hjudge _].
    rewrite Hv in Hjudge. cbn [snd] in Hjudge. rewrite Hjudge in H.
    cbn [orb] in H.
    destruct (payout_table cfg w req job a) as [[Hp _] | (pool & Ha & Hpool & _)].
    + rewrite Hp in H. discriminate H.
    + split; [reflexivity |]. split; [exact Ha |]. rewrite Hpool. discriminate.
  - cbn [existsb is_chain_call orb] in H.
    pose proof (judge_part_has_no_chain_call cfg w req job) as [Hjudge _].
    rewrite Hv in Hjudge. cbn [snd] in Hjudge. rewrite Hjudge in H.
    discriminate H.
Qed.

Lemma chain_calls_need_approval_witness :
  status (fst (post_api_submit Scenario.demo_with_pool
                 (Scenario.world CallFails false) Scenario.plain)) = 200 /\
  ToBoolean (body_member
               (fst (post_api_submit Scenario.demo_with_pool
                       (Scenario.world CallFails false) Scenario.plain))
               "approved") = true /\
  poolKeypair Scenario.demo_with_pool <> None.
Proof.
  apply chain_calls_need_approval. reflexivity.
Defined.

(** X3.  A verdict that is not truthy is never paid, pool or no pool: the
    answer has reward 0 and [txSignature = null], and no chain call is
    made. *)
Theorem rejection_pays_nothing cfg w req :
  status (fst (post_api_submit cfg w req)) = 200 ->
  ToBoolean (body_member (fst (post_api_submit cfg w req)) "approved") = false ->
  body_member (fst (post_api_submit cfg w req)) "reward" = VNumber (of_Z 0) /\
  body_member (fst (post_api_submit cfg w req)) "txSignature" = VNull /\
  existsb is_chain_call (snd (post_api_submit cfg w req)) = false.
Proof.
  outcome_cases cfg w req; intros Hs Ha; try discriminate Hs.
  change (ToBoolean a = false) in Ha.
  destruct (payout_table cfg w req job a) as [[Hp _] | (pool & Ha' & _)];
    [| rewrite Ha in Ha'; discriminate Ha'].
  rewrite Hp. cbn [fst snd]. rewrite app_nil_r.
  split; [| split; [reflexivity |]].
  - unfold body_member, assembled. cbn [body res_json approved].
    change (own (js "reward") _) with
      (Some (if ToBoolean a then VNumber (reward job) else VNumber (of_Z 0))).
    rewrite Ha. reflexivity.
  - cbn [existsb is_chain_call orb].
    pose proof (judge_part_has_no_chain_call cfg w req job) as [Hjudge _].
    rewrite Hv in Hjudge. exact Hjudge.
Qed.

Lemma rejection_pays_nothing_witness :
  let w := Scenario.world (Parses Cases.refusal) true in
  body_member (fst (post_api_submit Scenario.production w Scenario.with_image))
              "reward" = VNumber (of_Z 0) /\
  body_member (fst (post_api_submit Scenario.production w Scenario.with_image))
              "txSignature" = VNull /\
  existsb is_chain_call
    (snd (post_api_submit Scenario.production w Scenario.with_image)) = false.
Proof.
  apply rejection_pays_nothing; reflexivity.
Defined.

(** X4.  The calls of one run come in a fixed order and at most once each:
    nothing at all, or the catalog lookup, then at most one judgment call,
    then a prefix of: address construction, one [sendTransaction], one
    [confirmTransaction] of the signature that send returned.  Nothing is
    retried. *)
Theorem call_sequence cfg w req :
  let t := snd (post_api_submit cfg w req) in
  t = [] \/
  exists judge chain,
    t = JobsFind (lookup_key req) :: judge ++ chain /\
    (judge = [] \/ exists q, judge = [ChatCreate q]) /\
    (chain = [] \/
     (exists address, chain = [NewPublicKey address]) \/
     (exists address tx,
        sendTransaction w tx = None /\
        chain = [NewPublicKey address; SendTransaction tx]) \/
     (exists address tx s,
        sendTransaction w tx = Some s /\
        chain = [NewPublicKey address; SendTransaction tx; ConfirmTransaction s])).
Proof.
  cbv zeta. outcome_cases cfg w req; try (left; reflexivity).
  - right. exists judge, (snd (payout_of cfg w req job a)).
    split; [reflexivity |]. split.
    + destruct (verdict_calls cfg w req job) as [H | (img & _ & _ & H)];
        rewrite Hv in H; cbn [snd] in H; subst judge; [left | right; eexists];
        reflexivity.
    + destruct (payout_table cfg w req job a)
        as [[-> _] | (pool & _ & _ & [[_ ->] | (key & _ & [[Hs ->] | (s & Hs & ->)])])];
        cbn [snd].
      * left. reflexivity.
      * right. left. eexists. reflexivity.
      * right. right. left. eexists _, _. split; [exact Hs | reflexivity].
      * right. right. right. eexists _, _, _. split; [exact Hs | reflexivity].
  - right. exists judge, []. rewrite app_nil_r.
    split; [reflexivity |]. split; [| left; reflexivity].
    destruct (verdict_calls cfg w req job) as [H | (img & _ & _ & H)];
      rewrite Hv in H; cbn [snd] in H; subst judge; [left | right; eexists];
      reflexivity.
  - right. exists [], []. split; [reflexivity |]. split; left; reflexivity.
Qed.

(** Every task the lookup returns is a task of the catalog. *)
Lemma jobs_find_in n j : jobs_find n = Some j -> In j jobs /\ n = id j.
Proof.
  unfold jobs_find. intros H. apply find_some in H as [Hin Heq].
  split; [exact Hin |].
  destruct Hin as [<- | [<- | [<- | []]]];
    apply strict_eq_finite in Heq; exact Heq.
Qed.

(** X5.  A transfer handed to [sendTransaction] is drawn on the pool's
    account and signed by it, goes to the key constructed from the wallet
    field, and carries the payout of the task the submission resolved to: an
    integer number of lamports, the task's nominal reward times 10^9, between
    50,000,000 and 150,000,000. *)
Theorem transfer_content cfg w req tx :
  In (SendTransaction tx) (snd (post_api_submit cfg w req)) ->
  exists job pool key,
    In job jobs /\ jobs_find (lookup_key req) = Some job /\
    poolKeypair cfg = Some pool /\
    new_PublicKey w (ToString (wallet req)) = Some key /\
    fromPubkey tx = publicKey pool /\ signer tx = pool /\ toPubkey tx = key /\
    lamports tx = lamports_of job /\
    to_integer (lamports tx) = Some (Qtruncate (nominal_base_units job)) /\
    50000000 <= Qtruncate (nominal_base_units job) <= 150000000.
Proof.
  outcome_cases cfg w req; intros H.
  - destruct H as [H | H]; [discriminate H |].
    apply in_app_or in H as [H | H].
    + pose proof (judge_part_has_no_chain_call cfg w req job) as [_ Hjudge].
      rewrite Hv in Hjudge. apply Hjudge in H. discriminate H.
    + destruct (jobs_find_in _ _ Hfind) as [Hin _].
      assert (Hamount :
        to_integer (lamports_of job) = Some (Qtruncate (nominal_base_units job)) /\
        50000000 <= Qtruncate (nominal_base_units job) <= 150000000).
      { destruct Hin as [<- | [<- | [<- | []]]]; vm_compute;
          (split; [reflexivity | split; discriminate]). }
      destruct (payout_table cfg w req job a)
        as [[Hp _] | (pool & _ & Hpool & [[_ Hp] | (key & Hk & [[_ Hp] | (s & _ & Hp)])])];
        rewrite Hp in H; cbn [snd] in H.
      * destruct H.
      * destruct H as [H | []]. discriminate H.
      * destruct H as [H | [H | []]]; [discriminate H |].
        injection H as <-. exists job, pool, key.
        repeat (split; [first [assumption | reflexivity | apply Hamount] |]).
        apply Hamount.
      * destruct H as [H | [H | [H | []]]]; try discriminate H.
        injection H as <-. exists job, pool, key.
        repeat (split; [first [assumption | reflexivity | apply Hamount] |]).
        apply Hamount.
  - destruct H as [H | H]; [discriminate H |].
    pose proof (judge_part_has_no_chain_call cfg w req job) as [_ Hjudge].
    rewrite Hv in Hjudge. apply Hjudge in H. discriminate H.
  - destruct H as [H | []]. discriminate H.
  - destruct H.
  - destruct H.
  - destruct H.
Qed.

Lemma transfer_content_witness :
  exists job pool key,
    In job jobs /\ jobs_find (lookup_key Scenario.plain) = Some job /\
    poolKeypair Scenario.demo_with_pool = Some pool /\
    new_PublicKey (Scenario.world CallFails true)
                  (ToString (wallet Scenario.plain)) = Some key /\
    fromPubkey (transfer Scenario.pool Scenario.claimant job1) = publicKey pool /\
    signer (transfer Scenario.pool Scenario.claimant job1) = pool /\
    toPubkey (transfer Scenario.pool Scenario.claimant job1) = key /\
    lamports (transfer Scenario.pool Scenario.claimant job1) = lamports_of job /\
    to_integer (lamports (transfer Scenario.pool Scenario.claimant job1))
    = Some (Qtruncate (nominal_base_units job)) /\
    50000000 <= Qtruncate (nominal_base_units job) <= 150000000.
Proof.
  apply (transfer_content Scenario.demo_with_pool (Scenario.world CallFails true)
           Scenario.plain).
  right. right. left. reflexivity.
Defined.

(** X6.  In an assembled answer [txSignature] is [null] or a string, and it
    is the string [s] exactly when [confirmTransaction(s)] was called, that
    is, when [sendTransaction] resolved to [s]; the outcome of the
    confirmation plays no part. *)
Theorem signature_iff_confirmation_called cfg w req :
  status (fst (post_api_submit cfg w req)) = 200 ->
  (body_member (fst (post_api_submit cfg w req)) "txSignature" = VNull \/
   exists s,
     body_member (fst (post_api_submit cfg w req)) "txSignature" = VString s) /\
  forall s,
    body_member (fst (post_api_submit cfg w req)) "txSignature" = VString s
    <-> In (ConfirmTransaction s) (snd (post_api_submit cfg w req)).
Proof.
  outcome_cases cfg w req; intros Hs; try discriminate Hs.
  change (body_member (assembled job _) "txSignature")
    with (fst (payout_of cfg w req job a)).
  assert (Hjudge : forall s, ~ In (ConfirmTransaction s) judge).
  { intros s H.
    pose proof (judge_part_has_no_chain_call cfg w req job) as [_ Hj'].
    rewrite Hv in Hj'. apply Hj' in H. discriminate H. }
  assert (Hin : forall s chain,
             In (ConfirmTransaction s) (JobsFind (lookup_key req) :: judge ++ chain)
             <-> In (ConfirmTransaction s) chain).
  { intros s chain. split.
    - intros [H | H]; [discriminate H |].
      apply in_app_or in H as [H | H]; [destruct (Hjudge s H) | exact H].
    - intros H. right. apply in_or_app. right. exact H. }
  destruct (payout_table cfg w req job a)
    as [[Hp _] | (pool & _ & _ & [[_ Hp] | (key & _ & [[_ Hp] | (s0 & _ & Hp)])])];
    rewrite Hp; cbn [fst snd]; (split; [first [left; reflexivity | right; eexists; reflexivity] |]);
    intros s; rewrite Hin; split; intros H;
    try discriminate H;
    repeat (destruct H as [H | H]; try discriminate H); try (destruct H; fail).
  - injection H as <-. right. right. left. reflexivity.
  - injection H as <-. reflexivity.
Qed.

Lemma signature_iff_confirmation_called_witness :
  let r := fst (post_api_submit Scenario.demo_with_pool
                  (Scenario.world CallFails false) Scenario.plain) in
  let t := snd (post_api_submit Scenario.demo_with_pool
                  (Scenario.world CallFails false) Scenario.plain) in
  (body_member r "txSignature" = VNull \/
   exists s, body_member r "txSignature" = VString s) /\
  forall s,
    body_member r "txSignature" = VString s <-> In (ConfirmTransaction s) t.
Proof.
  apply signature_iff_confirmation_called. reflexivity.
Defined.

(** X7.  A wallet field the address constructor rejects does not fail the
    request: with a truthy verdict and a pool configured, the answer is
    still the assembled one with the task's reward, its [txSignature] is
    [null], and the only chain call is the failed construction; nothing is
    sent. *)
Theorem invalid_address_is_unpaid cfg w req pool :
  status (fst (post_api_submit cfg w req)) = 200 ->
  ToBoolean (body_member (fst (post_api_submit cfg w req)) "approved") = true ->
  poolKeypair cfg = Some pool ->
  new_PublicKey w (ToString (wallet req)) = None ->
  body_member (fst (post_api_submit cfg w req)) "txSignature" = VNull /\
  filter is_chain_call (snd (post_api_submit cfg w req))
  = [NewPublicKey (ToString (wallet req))] /\
  exists job,
    jobs_find (lookup_key req) = Some job /\
    body_member (fst (post_api_submit cfg w req)) "reward" = VNumber (reward job).
Proof.
  outcome_cases cfg w req; intros Hs Ha Hpool Hkey; try discriminate Hs.
  change (ToBoolean a = true) in Ha.
  assert (Hp : payout_of cfg w req job a
               = (VNull, [NewPublicKey (ToString (wallet req))])).
  { unfold payout_of. rewrite Ha, Hpool, Hkey. reflexivity. }
  rewrite Hp. cbn [fst snd]. split; [reflexivity |]. split.
  - cbn [filter is_chain_call]. rewrite filter_app. cbn [filter is_chain_call].
    replace (filter is_chain_call judge) with (@nil Event); [reflexivity |].
    destruct (verdict_calls cfg w req job) as [H | (img & _ & _ & H)];
      rewrite Hv in H; cbn [snd] in H; subst judge; reflexivity.
  - exists job. split; [reflexivity |].
    unfold body_member, assembled. cbn [body res_json approved].
    change (own (js "reward") _) with
      (Some (if ToBoolean a then VNumber (reward job) else VNumber (of_Z 0))).
    rewrite Ha. reflexivity.
Qed.

Lemma invalid_address_is_unpaid_witness :
  let w := Scenario.world CallFails true in
  body_member (fst (post_api_submit Scenario.demo_with_pool w Cases.bad_address))
              "txSignature" = VNull /\
  filter is_chain_call (snd (post_api_submit Scenario.demo_with_pool w Cases.bad_address))
  = [NewPublicKey (ToString (wallet Cases.bad_address))] /\
  exists job,
    jobs_find (lookup_key Cases.bad_address) = Some job /\
    body_member (fst (post_api_submit Scenario.demo_with_pool w Cases.bad_address))
                "reward" = VNumber (reward job).
Proof.
  apply (invalid_address_is_unpaid Scenario.demo_with_pool
           (Scenario.world CallFails true) Cases.bad_address Scenario.pool);
    reflexivity.
Defined.

(** X8.  A rejected [sendTransaction] does not fail the request either: the
    answer is the assembled one with [txSignature = null], the chain calls
    are the address construction and the one send, and no confirmation is
    asked for. *)
Theorem send_rejection_is_unpaid cfg w req task pool key :
  status (fst (post_api_submit cfg w req)) = 200 ->
  ToBoolean (body_member (fst (post_api_submit cfg w req)) "approved") = true ->
  jobs_find (lookup_key req) = Some task ->
  poolKeypair cfg = Some pool ->
  new_PublicKey w (ToString (wallet req)) = Some key ->
  sendTransaction w (transfer pool key task) = None ->
  body_member (fst (post_api_submit cfg w req)) "txSignature" = VNull /\
  body_member (fst (post_api_submit cfg w req)) "reward" = VNumber (reward task) /\
  filter is_chain_call (snd (post_api_submit cfg w req))
  = [NewPublicKey (ToString (wallet req));
     SendTransaction (transfer pool key task)].
Proof.
  intros Hs Ha Hf. revert Hs Ha.
  outcome_cases cfg w req; intros Hs Ha Hpool Hkey Hsend; try discriminate Hs.
  injection Hf as ->.
  change (ToBoolean a = true) in Ha.
  assert (Hp : payout_of cfg w req task a
               = (VNull, [NewPublicKey (ToString (wallet req));
                          SendTransaction (transfer pool key task)])).
  { unfold payout_of. rewrite Ha, Hpool, Hkey. cbv zeta. rewrite Hsend.
    reflexivity. }
  rewrite Hp. cbn [fst snd]. split; [reflexivity |]. split.
  - unfold body_member, assembled. cbn [body res_json approved].
    change (own (js "reward") _) with
      (Some (if ToBoolean a then VNumber (reward task) else VNumber (of_Z 0))).
    rewrite Ha. reflexivity.
  - cbn [filter is_chain_call]. rewrite filter_app. cbn [filter is_chain_call].
    replace (filter is_chain_call judge) with (@nil Event); [reflexivity |].
    destruct (verdict_calls cfg w req task) as [H | (img & _ & _ & H)];
      rewrite Hv in H; cbn [snd] in H; subst judge; reflexivity.
Qed.

Lemma send_rejection_is_unpaid_witness :
  body_member (fst (post_api_submit Scenario.demo_with_pool Cases.send_rejects
                      Scenario.plain)) "txSignature" = VNull /\
  body_member (fst (post_api_submit Scenario.demo_with_pool Cases.send_rejects
                      Scenario.plain)) "reward" = VNumber (reward job1) /\
  filter is_chain_call (snd (post_api_submit Scenario.demo_with_pool
                               Cases.send_rejects Scenario.plain))
  = [NewPublicKey (ToString (wallet Scenario.plain));
     SendTransaction (transfer Scenario.pool Scenario.claimant job1)].
Proof.
  apply (send_rejection_is_unpaid Scenario.demo_with_pool Cases.send_rejects
           Scenario.plain job1 Scenario.pool Scenario.claimant);
    reflexivity.
Defined.

(** X9.  The handler uses the task identifier only through the task that
    [parseInt] selects: two submissions that differ in nothing but a
    non-empty [jobId], and whose identifiers resolve alike, get the same
    answer and cause the same calls after the lookup. *)
Theorem jobId_matters_only_through_lookup cfg w req1 req2 :
  wallet req1 = wallet req2 -> proofText req1 = proofText req2 ->
  file req1 = file req2 ->
  present (jobId req1) = true -> present (jobId req2) = true ->
  jobs_find (lookup_key req1) = jobs_find (lookup_key req2) ->
  fst (post_api_submit cfg w req1) = fst (post_api_submit cfg w req2) /\
  tl (snd (post_api_submit cfg w req1)) = tl (snd (post_api_submit cfg w req2)).
Proof.
  intros Hw Hp Hf Hj1 Hj2 Hfind.
  rewrite !submit_is_outcome. unfold outcome.
  rewrite Hj1, Hj2, <- Hw, <- Hfind. cbv zeta.
  destruct (present (wallet req1)); cbn [andb negb]; [| split; reflexivity].
  destruct (jobs_find (lookup_key req1)) as [job |]; [| split; reflexivity].
  assert (Hv : verdict_of cfg w req2 job = verdict_of cfg w req1 job).
  { unfold verdict_of, chat_request. rewrite Hf, Hp. reflexivity. }
  assert (Hpay : forall a, payout_of cfg w req2 job a = payout_of cfg w req1 job a).
  { intros a. unfold payout_of. rewrite Hw. reflexivity. }
  rewrite Hv. destruct (verdict_of cfg w req1 job) as [[[a rs] |] judge];
    [rewrite Hpay |]; split; reflexivity.
Qed.

Lemma jobId_matters_only_through_lookup_witness :
  let w := Scenario.world CallFails true in
  fst (post_api_submit Scenario.demo_with_pool w Scenario.plain)
  = fst (post_api_submit Scenario.demo_with_pool w Cases.padded) /\
  tl (snd (post_api_submit Scenario.demo_with_pool w Scenario.plain))
  = tl (snd (post_api_submit Scenario.demo_with_pool w Cases.padded)).
Proof.
  apply jobId_matters_only_through_lookup; reflexivity.
Defined.

(** X10.  The verdict does not depend on the chain: two runs whose judgment
    backend answers alike report the same status, verdict, rationale and
    reward, whatever the chain services do in either. *)
Theorem verdict_independent_of_chain cfg w1 w2 req :
  chat_completions_create w1 = chat_completions_create w2 ->
  let r1 := fst (post_api_submit cfg w1 req) in
  let r2 := fst (post_api_submit cfg w2 req) in
  status r1 = status r2 /\
  body_member r1 "approved" = body_member r2 "approved" /\
  body_member r1 "reason" = body_member r2 "reason" /\
  body_member r1 "reward" = body_member r2 "reward".
Proof.
  intros Hchat. cbv zeta.
  rewrite !submit_is_outcome. unfold outcome. cbv zeta.
  destruct (negb _); [repeat split |].
  destruct (jobs_find (lookup_key req)) as [job |]; [| repeat split].
  assert (Hv : verdict_of cfg w2 req job = verdict_of cfg w1 req job).
  { unfold verdict_of. rewrite Hchat. reflexivity. }
  rewrite Hv. destruct (verdict_of cfg w1 req job) as [[[a rs] |] judge];
    repeat split.
Qed.

Lemma verdict_independent_of_chain_witness :
  let r1 := fst (post_api_submit Scenario.production
                   (Scenario.world (Parses Scenario.stringly) true)
                   Scenario.with_image) in
  let r2 := fst (post_api_submit Scenario.production
                   (Scenario.world (Parses Scenario.stringly) false)
                   Scenario.with_image) in
  status r1 = status r2 /\
  body_member r1 "approved" = body_member r2 "approved" /\
  body_member r1 "reason" = body_member r2 "reason" /\
  body_member r1 "reward" = body_member r2 "reward".
Proof.
  apply verdict_independent_of_chain. reflexivity.
Defined.

(** X11.  Without a pool the wallet field is only tested for being
    non-empty: two submissions that differ in nothing but a non-empty
    wallet get the same answer and cause the same calls. *)
Theorem wallet_is_not_read_without_pool cfg w req1 req2 :
  poolKeypair cfg = None ->
  jobId req1 = jobId req2 -> proofText req1 = proofText req2 ->
  file req1 = file req2 ->
  present (wallet req1) = true -> present (wallet req2) = true ->
  post_api_submit cfg w req1 = post_api_submit cfg w req2.
Proof.
  intros Hpool Hj Hp Hf Hw1 Hw2.
  rewrite !submit_is_outcome. unfold outcome, lookup_key.
  rewrite Hw1, Hw2, <- Hj. cbv zeta.
  destruct (negb _); [reflexivity |].
  destruct (jobs_find _) as [job |]; [| reflexivity].
  assert (Hv : verdict_of cfg w req2 job = verdict_of cfg w req1 job).
  { unfold verdict_of, chat_request. rewrite Hf, Hp. reflexivity. }
  assert (Hpay : forall req a, payout_of cfg w req job a = (VNull, [])).
  { intros req a. unfold payout_of. rewrite Hpool.
    destruct (ToBoolean a); reflexivity. }
  rewrite Hv. destruct (verdict_of cfg w req1 job) as [[[a rs] |] judge];
    [rewrite !Hpay |]; reflexivity.
Qed.

Lemma wallet_is_not_read_without_pool_witness :
  post_api_submit Scenario.demo_without_pool (Scenario.world CallFails true)
                  Scenario.plain
  = post_api_submit Scenario.demo_without_pool (Scenario.world CallFails true)
                    Cases.bad_address.
Proof.
  apply wallet_is_not_read_without_pool; reflexivity.
Defined.

(** X12.  The judgment backend is called exactly when the submission passes
    the intake, resolves to a task, a backend is configured and an image is
    supplied; the request it receives is the one built from that task, the
    proof text and that image. *)
Theorem backend_called_iff cfg w req :
  (existsb is_judge_call (snd (post_api_submit cfg w req)) = true
   <-> present (jobId req) = true /\ present (wallet req) = true /\
       jobs_find (lookup_key req) <> None /\
       openai cfg <> None /\ file req <> None) /\
  forall q,
    In (ChatCreate q) (snd (post_api_submit cfg w req)) ->
    exists job imageFile,
      jobs_find (lookup_key req) = Some job /\ file req = Some imageFile /\
      q = chat_request job req imageFile.
Proof.
  assert (Hpay : forall job a,
             existsb is_judge_call (snd (payout_of cfg w req job a)) = false /\
             forall q, ~ In (ChatCreate q) (snd (payout_of cfg w req job a))).
  { intros job a.
    destruct (payout_table cfg w req job a)
      as [[-> _] | (pool & _ & _ & [[_ ->] | (key & _ & [[_ ->] | (s & _ & ->)])])];
      cbn [snd]; (split; [reflexivity |]); intros q H;
      repeat (destruct H as [H | H]; try discriminate H); destruct H. }
  outcome_cases cfg w req.
  - destruct (Hpay job a) as [Hpe Hpi].
    cbn [existsb is_judge_call orb]. rewrite existsb_app, Hpe, orb_false_r.
    destruct (verdict_calls cfg w req job) as [H | (img & Ho & Hf & H)];
      rewrite Hv in H; cbn [snd] in H; subst judge.
    + split.
      * split; [discriminate |]. intros (_ & _ & _ & Ho & Hf).
        unfold verdict_of in Hv.
        destruct (openai cfg); [| contradiction].
        destruct (file req); [discriminate Hv | contradiction].
      * intros q [H | H]; [discriminate H |]. destruct (Hpi q H).
    + split.
      * split; [| reflexivity]. intros _. rewrite Hf.
        repeat split; try assumption; discriminate.
      * intros q [H | [H | H]]; [discriminate H | | destruct (Hpi q H)].
        injection H as <-. exists job, img. auto.
  - destruct (verdict_calls cfg w req job) as [H | (img & Ho & Hf & H)];
      rewrite Hv in H; cbn [snd] in H; subst judge.
    + unfold verdict_of in Hv.
      destruct (openai cfg); [| discriminate Hv].
      destruct (file req); discriminate Hv.
    + split.
      * split; [| reflexivity]. intros _. rewrite Hf.
        repeat split; try assumption; discriminate.
      * intros q [H | [H | []]]; [discriminate H |].
        injection H as <-. exists job, img. auto.
  - split.
    + split; [discriminate |]. intros (_ & _ & H & _). contradiction.
    + intros q [H | []]. discriminate H.
  - split; [split; [discriminate | intros (_ & H & _); discriminate H] |
            intros q []].
  - split; [split; [discriminate | intros (H & _); discriminate H] |
            intros q []].
  - split; [split; [discriminate | intros (H & _); discriminate H] |
            intros q []].
Qed.

(* ================================================================== *)
(** ** Further properties of the catalog and the listing *)

(** X13.  The lookup of line 98 returns a task exactly when that task is in
    the catalog and its id is strictly equal to the key, and then the key is
    that id; ids do not repeat, so every task of the catalog is found under
    its own id. *)
Theorem catalog_lookup :
  (forall n j, jobs_find n = Some j <-> In j jobs /\ strict_eq (id j) n = true) /\
  (forall n j, jobs_find n = Some j -> n = id j) /\
  (forall j, In j jobs -> jobs_find (id j) = Some j) /\
  NoDup (map id jobs).
Proof.
  split; [| split; [| split]].
  - intros n j. split.
    + intros H. unfold jobs_find in H. apply find_some in H. exact H.
    + intros [Hin Heq]. apply jobs_find_by_id; assumption.
  - intros n j H. apply (jobs_find_in n j H).
  - intros j Hin. apply jobs_find_by_id; [exact Hin |].
    destruct Hin as [<- | [<- | [<- | []]]]; reflexivity.
  - repeat constructor; cbn; intros H;
      repeat (destruct H as [H | H]; [discriminate H |]); exact H.
Qed.

(** X14.  What an approved submission is told it earned is what the listing
    advertises: the reward of an assembled answer with a truthy verdict is
    the [reward] of the listing's object whose [id] is the Number the
    submitted identifier parsed to. *)
Theorem reported_reward_is_advertised cfg w req :
  status (fst (post_api_submit cfg w req)) = 200 ->
  ToBoolean (body_member (fst (post_api_submit cfg w req)) "approved") = true ->
  exists items o,
    body get_api_jobs = VArray items /\ In o items /\
    property o "id" = VNumber (lookup_key req) /\
    property o "reward" = body_member (fst (post_api_submit cfg w req)) "reward".
Proof.
  outcome_cases cfg w req; intros Hs Ha; try discriminate Hs.
  change (ToBoolean a = true) in Ha.
  destruct (jobs_find_in _ _ Hfind) as [Hin Hid].
  exists (map public_view jobs), (public_view job).
  split; [reflexivity |]. split; [apply in_map; exact Hin |].
  split; [rewrite Hid; reflexivity |].
  unfold body_member, assembled. cbn [body res_json approved].
  change (own (js "reward") _) with
    (Some (if ToBoolean a then VNumber (reward job) else VNumber (of_Z 0))).
  rewrite Ha. reflexivity.
Qed.

Lemma reported_reward_is_advertised_witness :
  exists items o,
    body get_api_jobs = VArray items /\ In o items /\
    property o "id" = VNumber (lookup_key Scenario.plain) /\
    property o "reward"
    = body_member (fst (post_api_submit Scenario.demo_without_pool
                          (Scenario.world CallFails true) Scenario.plain))
                  "reward".
Proof.
  apply reported_reward_is_advertised; reflexivity.
Defined.

(* ================================================================== *)
(** ** [GET /api/pool] and start-up *)

(** X15.  [GET /api/pool] asks for at most one balance, that of the pool's
    own account, and only when a pool is configured; it answers 500 exactly
    when a pool is configured and that request fails, and then the body has
    the single member [error]; otherwise it answers 200 with [address] and
    [balance]. *)
Theorem pool_endpoint_errors cfg getBalance :
  let r := fst (get_api_pool cfg getBalance) in
  let asked := snd (get_api_pool cfg getBalance) in
  (asked = [] <-> poolKeypair cfg = None) /\
  (forall account, In account asked ->
     asked = [account] /\ poolKeypair cfg = Some {| publicKey := account |}) /\
  (status r = 500
   <-> exists pool, poolKeypair cfg = Some pool /\ getBalance (publicKey pool) = None) /\
  (status r = 500 -> own_keys (body r) = [js "error"]) /\
  (status r <> 500 ->
   status r = 200 /\ own_keys (body r) = [js "address"; js "balance"]).
Proof.
  cbv zeta. unfold get_api_pool.
  destruct (poolKeypair cfg) as [[account] |].
  - cbn [publicKey].
    assert (Hone : forall a, In a [account] ->
              [account] = [a] /\
              Some {| publicKey := account |} = Some {| publicKey := a |}).
    { intros a [<- | []]. split; reflexivity. }
    destruct (getBalance account) as [balance |] eqn:Hb; cbn [fst snd].
    + split; [split; discriminate |]. split; [exact Hone |].
      split; [| split; [discriminate | intros _; split; reflexivity]].
      split; [discriminate |].
      intros (pool & Hp & Hn). injection Hp as <-. cbn [publicKey] in Hn.
      rewrite Hb in Hn. discriminate Hn.
    + split; [split; discriminate |]. split; [exact Hone |].
      split; [| split; [reflexivity | intros H; exfalso; apply H; reflexivity]].
      split; [| reflexivity].
      intros _. exists {| publicKey := account |}. split; [reflexivity | exact Hb].
  - cbn [fst snd].
    split; [split; reflexivity |]. split; [intros a [] |].
    split; [| split; [discriminate | intros _; split; reflexivity]].
    split; [discriminate |]. intros (pool & Hp & _). discriminate Hp.
Qed.

(** X16.  The account a payout is drawn from is the account [GET /api/pool]
    shows: under one configuration, the [fromPubkey] of any transfer the
    submit handler sends is the [address] of every successful pool answer,
    and the account whose balance that answer reports. *)
Theorem pool_address_is_the_payer cfg w req getBalance tx :
  In (SendTransaction tx) (snd (post_api_submit cfg w req)) ->
  status (fst (get_api_pool cfg getBalance)) = 200 ->
  body_member (fst (get_api_pool cfg getBalance)) "address"
  = VString (fromPubkey tx) /\
  snd (get_api_pool cfg getBalance) = [fromPubkey tx].
Proof.
  intros Hin Hs.
  assert (Hpool : exists pool, poolKeypair cfg = Some pool /\
                               fromPubkey tx = publicKey pool).
  { revert Hin. clear Hs. outcome_cases cfg w req; intros H.
    - destruct H as [H | H]; [discriminate H |].
      apply in_app_or in H as [H | H].
      + pose proof (judge_part_has_no_chain_call cfg w req job) as [_ Hjudge].
        rewrite Hv in Hjudge. apply Hjudge in H. discriminate H.
      + destruct (payout_table cfg w req job a)
          as [[Hp _] | (pool & _ & Hpool & [[_ Hp] | (key & _ & [[_ Hp] | (s & _ & Hp)])])];
          rewrite Hp in H; cbn [snd] in H;
          repeat (destruct H as [H | H]; try discriminate H);
          try (destruct H; fail);
          injection H as <-; exists pool; (split; [exact Hpool | reflexivity]).
    - destruct H as [H | H]; [discriminate H |].
      pose proof (judge_part_has_no_chain_call cfg w req job) as [_ Hjudge].
      rewrite Hv in Hjudge. apply Hjudge in H. discriminate H.
    - destruct H as [H | []]. discriminate H.
    - destruct H.
    - destruct H.
    - destruct H. }
  destruct Hpool as (pool & Hpool & ->).
  revert Hs. unfold get_api_pool. rewrite Hpool.
  destruct (getBalance (publicKey pool)); cbn [fst snd]; intros Hs;
    [split; reflexivity | discriminate Hs].
Qed.

Lemma pool_address_is_the_payer_witness :
  let balance := fun _ : PublicKey => Some (of_Z 1000000000) in
  body_member (fst (get_api_pool Scenario.demo_with_pool balance)) "address"
  = VString (fromPubkey (transfer Scenario.pool Scenario.claimant job1)) /\
  snd (get_api_pool Scenario.demo_with_pool balance)
  = [fromPubkey (transfer Scenario.pool Scenario.claimant job1)].
Proof.
  apply (pool_address_is_the_payer Scenario.demo_with_pool
           (Scenario.world CallFails true) Scenario.plain).
  - right. right. left. reflexivity.
  - reflexivity.
Defined.

(** X17.  The pool answer and the payout use inverse conversions on the
    catalog's amounts: a pool that holds exactly the payout of a task is
    shown with a balance equal to that task's reward, the Number the listing
    shows. *)
Theorem payout_shown_as_reward cfg pool getBalance j :
  In j jobs ->
  poolKeypair cfg = Some pool ->
  getBalance (publicKey pool) = Some (lamports_of j) ->
  body_member (fst (get_api_pool cfg getBalance)) "balance" = VNumber (reward j) /\
  body_member (fst (get_api_pool cfg getBalance)) "balance"
  = property (public_view j) "reward".
Proof.
  intros Hin Hpool Hb. unfold get_api_pool. rewrite Hpool, Hb. cbn [fst].
  assert (Hdiv : div (lamports_of j) LAMPORTS_PER_SOL = reward j).
  { destruct Hin as [<- | [<- | [<- | []]]]; vm_compute; reflexivity. }
  unfold body_member, res_json. cbn [body].
  change (own (js "balance") _)
    with (Some (VNumber (div (lamports_of j) LAMPORTS_PER_SOL))).
  rewrite Hdiv. split; reflexivity.
Qed.

Lemma payout_shown_as_reward_witness :
  let balance := fun _ : PublicKey => Some (lamports_of job3) in
  body_member (fst (get_api_pool Scenario.demo_with_pool balance)) "balance"
  = VNumber (reward job3) /\
  body_member (fst (get_api_pool Scenario.demo_with_pool balance)) "balance"
  = property (public_view job3) "reward".
Proof.
  apply (payout_shown_as_reward Scenario.demo_with_pool Scenario.pool
           (fun _ => Some (lamports_of job3)) job3);
    [right; right; left; reflexivity | reflexivity | reflexivity].
Defined.

(** Without a pool no run makes a chain call. *)
Lemma chain_calls_need_pool cfg w req :
  poolKeypair cfg = None ->
  existsb is_chain_call (snd (post_api_submit cfg w req)) = false.
Proof.
  intros Hpool. outcome_cases cfg w req; try reflexivity.
  - cbn [existsb is_chain_call orb]. rewrite existsb_app.
    pose proof (judge_part_has_no_chain_call cfg w req job) as [Hjudge _].
    rewrite Hv in Hjudge. cbn [snd] in Hjudge. rewrite Hjudge.
    unfold payout_of. rewrite Hpool. destruct (ToBoolean a); reflexivity.
  - cbn [existsb is_chain_call orb].
    pose proof (judge_part_has_no_chain_call cfg w req job) as [Hjudge _].
    rewrite Hv in Hjudge. exact Hjudge.
Qed.

(** X18.  Start-up fails closed on the pool key: when [POOL_PRIVATE_KEY] is
    unset, empty, or a text the key parser rejects, the process runs with no
    pool; no submission causes a chain call, and [GET /api/pool] answers
    [Not configured] with balance 0 without asking the chain. *)
Theorem startup_without_pool_key keypair_of env w req getBalance :
  POOL_PRIVATE_KEY env = None \/ POOL_PRIVATE_KEY env = Some [] \/
  (exists text, POOL_PRIVATE_KEY env = Some text /\ keypair_of text = None) ->
  let cfg := startup keypair_of env in
  poolKeypair cfg = None /\
  existsb is_chain_call (snd (post_api_submit cfg w req)) = false /\
  get_api_pool cfg getBalance
  = (res_json (VObject [ (js "address", VString (js "Not configured"));
                         (js "balance", VNumber (of_Z 0)) ]), []).
Proof.
  intros H. cbv zeta.
  assert (Hpool : poolKeypair (startup keypair_of env) = None).
  { unfold startup. cbn [poolKeypair].
    destruct H as [-> | [-> | (text & -> & Hk)]]; try reflexivity.
    destruct text; [reflexivity | exact Hk]. }
  split; [exact Hpool |]. split.
  - destruct (existsb is_chain_call
                (snd (post_api_submit (startup keypair_of env) w req))) eqn:He;
      [| reflexivity].
    rewrite (chain_calls_need_pool _ w req Hpool) in He. discriminate He.
  - unfold get_api_pool. rewrite Hpool. reflexivity.
Qed.

Lemma startup_without_pool_key_witness :
  let cfg := startup Cases.keypair_of Cases.env_without_keys in
  poolKeypair cfg = None /\
  existsb is_chain_call
    (snd (post_api_submit cfg (Scenario.world CallFails true) Scenario.plain))
  = false /\
  get_api_pool cfg (fun _ => Some (of_Z 5))
  = (res_json (VObject [ (js "address", VString (js "Not configured"));
                         (js "balance", VNumber (of_Z 0)) ]), []).
Proof.
  apply (startup_without_pool_key Cases.keypair_of Cases.env_without_keys).
  right. right. exists (js "not json"). split; reflexivity.
Defined.

(** X19.  With [OPENAI_API_KEY] unset or empty the process runs in demo
    mode: no submission reaches the judgment backend, image or not, and
    every assembled answer carries [approved = true] with the rationale
    [Auto-approved (demo mode)] and the task's reward. *)
Theorem startup_without_api_key keypair_of env w req :
  OPENAI_API_KEY env = None \/ OPENAI_API_KEY env = Some [] ->
  let cfg := startup keypair_of env in
  openai cfg = None /\
  existsb is_judge_call (snd (post_api_submit cfg w req)) = false /\
  (status (fst (post_api_submit cfg w req)) = 200 ->
   body_member (fst (post_api_submit cfg w req)) "approved" = VBool true /\
   body_member (fst (post_api_submit cfg w req)) "reason"
   = VString (js "Auto-approved (demo mode)") /\
   exists job,
     jobs_find (lookup_key req) = Some job /\
     body_member (fst (post_api_submit cfg w req)) "reward"
     = VNumber (reward job)).
Proof.
  intros H. cbv zeta.
  assert (Ho : openai (startup keypair_of env) = None).
  { unfold startup. cbn [openai]. destruct H as [-> | ->]; reflexivity. }
  split; [exact Ho |].
  set (cfg := startup keypair_of env) in *.
  assert (Hverdict : forall job,
            verdict_of cfg w req job
            = (Some (VBool true, VString auto_approved), [])).
  { intros job. unfold verdict_of. rewrite Ho. reflexivity. }
  outcome_cases cfg w req;
    try (split; [reflexivity | intros Hs; discriminate Hs]).
  - rewrite Hverdict in Hv. injection Hv as <- <- <-.
    split.
    + cbn [app existsb is_judge_call orb].
      destruct (payout_table cfg w req job (VBool true))
        as [[-> _] | (pool & _ & _ & [[_ ->] | (key & _ & [[_ ->] | (s & _ & ->)])])];
        reflexivity.
    + intros _. split; [reflexivity |]. split; [reflexivity |].
      exists job. split; reflexivity.
  - rewrite Hverdict in Hv. discriminate Hv.
Qed.

Lemma startup_without_api_key_witness :
  let cfg := startup Cases.keypair_of Cases.env_without_keys in
  let w := Scenario.world (Parses Cases.refusal) true in
  openai cfg = None /\
  existsb is_judge_call (snd (post_api_submit cfg w Scenario.with_image)) = false /\
  (status (fst (post_api_submit cfg w Scenario.with_image)) = 200 ->
   body_member (fst (post_api_submit cfg w Scenario.with_image)) "approved"
   = VBool true /\
   body_member (fst (post_api_submit cfg w Scenario.with_image)) "reason"
   = VString (js "Auto-approved (demo mode)") /\
   exists job,
     jobs_find (lookup_key Scenario.with_image) = Some job /\
     body_member (fst (post_api_submit cfg w Scenario.with_image)) "reward"
     = VNumber (reward job)).
Proof.
  apply (startup_without_api_key Cases.keypair_of Cases.env_without_keys).
  left. reflexivity.
Defined.
